(** * oddly-infrastructures, Python DDD template: pipeline, mapper, repositories

    A shallow embedding of [infrastructures/ddd/python/src]: the domain model
    ([ExampleModel]), the mapper, the in-memory command and query
    repositories, the event bus, the service use cases and the middleware
    stages, followed by the properties the design document states about them.

    Conventions.
    - Python [str] is [string]; a character is a code point below 256.
    - [datetime] values are opaque instants, here integers.
    - A call that may raise returns a [result]; what is raised is an [exn],
      an instance of [Exception] or not ([asyncio.CancelledError] is not);
      the handlers of the sources are [except Exception] and catch the
      former only.
    - [uuid.uuid4()] and [datetime.utcnow()] read the environment; a
      constructor receives what it reads as an [Ambient] record. *)

From Stdlib Require Import ZArith Lia Bool Ascii.
From stdpp Require Import gmap strings list fin_maps.

Local Open Scope string_scope.
Local Open Scope list_scope.
Local Open Scope Z_scope.

(** ** Python strings *)

Module Py.

(** [str.isspace] on one code point below 256: the ASCII controls 9..13 and
    28..31, the space, NEL (133) and the no-break space (160). *)
Definition isspace (c : ascii) : bool :=
  let n := nat_of_ascii c in
  ((9 <=? n) && (n <=? 13) || (28 <=? n) && (n <=? 32)
   || (n =? 133) || (n =? 160))%nat.

Fixpoint lstrip (s : string) : string :=
  match s with
  | String c s' => if isspace c then lstrip s' else s
  | EmptyString => EmptyString
  end.

(** [rstrip]: a character is kept when it is not a space or when something
    is kept after it. *)
Fixpoint rstrip (s : string) : string :=
  match s with
  | String c s' =>
      match rstrip s' with
      | EmptyString => if isspace c then EmptyString else String c EmptyString
      | r => String c r
      end
  | EmptyString => EmptyString
  end.

(** [s.strip()] *)
Definition strip (s : string) : string := rstrip (lstrip s).

(** Truthiness of a [str]: [not s] holds for the empty string only. *)
Definition not_ (s : string) : bool :=
  match s with EmptyString => true | _ => false end.

(** [len(s)] *)
Definition len (s : string) : Z := Z.of_nat (String.length s).

(** [c.upper()] on one code point below 256: the letters a-z and the
    accented letters 224..254 (but the division sign 247) lose 32, and the
    sharp s (223) becomes the two letters "SS".  The upper-case forms of
    the micro sign (181) and of y with diaeresis (255) are the code points
    924 and 376, which a [string] cannot hold: both are left as they are,
    which like their upper-case forms are no ASCII character. *)
Definition upper_char (c : ascii) : string :=
  let n := nat_of_ascii c in
  if ((97 <=? n) && (n <=? 122)
      || (224 <=? n) && (n <=? 254) && negb (n =? 247))%nat
  then String (ascii_of_nat (n - 32)) EmptyString
  else if (n =? 223)%nat then "SS"
  else String c EmptyString.

(** [s.upper()] *)
Fixpoint upper (s : string) : string :=
  match s with
  | String c s' => upper_char c +:+ upper s'
  | EmptyString => EmptyString
  end.

(** [needle in s] *)
Fixpoint contains (needle s : string) : bool :=
  String.prefix needle s
  || match s with
     | String _ s' => contains needle s'
     | EmptyString => false
     end.

(** [s.replace(old, new)] for a non-empty [old]: scan from the left, [skip]
    counts the characters of a match still to be dropped. *)
Fixpoint replace_from (old new s : string) (skip : nat) : string :=
  match s with
  | EmptyString => EmptyString
  | String c s' =>
      match skip with
      | S k => replace_from old new s' k
      | O =>
          if String.prefix old s
          then new +:+ replace_from old new s' (String.length old - 1)
          else String c (replace_from old new s' 0)
      end
  end.

Definition replace (old new s : string) : string :=
  match old with
  | EmptyString => s
  | _ => replace_from old new s 0
  end.

(** [items[lo:hi]] on a list: negative bounds count from the end, then
    both are clamped to [0, len]. *)
Definition clamp (n i : Z) : Z :=
  let i := if i <? 0 then i + n else i in
  if i <? 0 then 0 else if n <? i then n else i.

Definition slice {A} (items : list A) (lo hi : Z) : list A :=
  let n := Z.of_nat (length items) in
  let lo := clamp n lo in
  let hi := clamp n hi in
  take (Z.to_nat (hi - lo)) (drop (Z.to_nat lo) items).

End Py.

(** ** Exceptions and results *)

Definition datetime := Z.

(** [ExampleErrorCode(Enum)] *)
Inductive ExampleErrorCode :=
| NOT_FOUND | VALIDATION_FAILED | CONFLICT | UNAUTHORIZED | ALREADY_EXISTS.

(** [code.value] *)
Definition error_code_value (c : ExampleErrorCode) : string :=
  match c with
  | NOT_FOUND => "not_found"
  | VALIDATION_FAILED => "validation_failed"
  | CONFLICT => "conflict"
  | UNAUTHORIZED => "unauthorized"
  | ALREADY_EXISTS => "already_exists"
  end.

(** What the sources raise or let through.  [ExampleServiceException] is
    the only [ServiceException]; it carries its code, its details and the
    message formatted at construction.  [OtherException] is any other
    instance of [Exception].  [CancelledError] is [asyncio.CancelledError],
    raised in a task that is cancelled while it awaits, and
    [OtherBaseException] any other [BaseException] that is no [Exception]
    ([KeyboardInterrupt], [SystemExit]). *)
Inductive exn :=
| ValueError (msg : string)
| PermissionError (msg : string)
| AttributeError (msg : string)
| ExampleServiceException
    (error_code : ExampleErrorCode) (details : list (string * string))
    (message : string)
| OtherException (msg : string)
| CancelledError (msg : string)
| OtherBaseException (msg : string).

(** [isinstance(e, Exception)] *)
Definition is_Exception (e : exn) : bool :=
  match e with
  | CancelledError _ | OtherBaseException _ => false
  | _ => true
  end.

Inductive result (A : Type) :=
| Ok (a : A)
| Raise (e : exn).
Arguments Ok {A} a.
Arguments Raise {A} e.

Definition is_ok {A} (r : result A) : bool :=
  match r with Ok _ => true | Raise _ => false end.

(** What a constructor reads from the environment: one [uuid.uuid4()] and the
    two [datetime.utcnow()] calls of [BaseModel.__init__] or
    [BaseEntity.__init__]. *)
Record Ambient := {
  uuid4 : string;
  utcnow_created : datetime;
  utcnow_updated : datetime;
}.

(** Sequencing of calls that may raise. *)
Definition result_bind {A B} (r : result A) (k : A -> result B) : result B :=
  match r with
  | Ok a => k a
  | Raise e => Raise e
  end.

Notation "'do!' x <- c ; k" := (result_bind c (fun x => k))
  (at level 10, x name, c at level 100, k at level 200).

(** ** Domain model: [domain/models/example_model.py] *)

Module ExampleModel.

(** The fields of [BaseModel] ([_id], [_created_at], [_updated_at]) and of
    [ExampleModel]; the properties [id], [name], ... return them. *)
Record t := mk {
  _id : string;
  _created_at : datetime;
  _updated_at : datetime;
  _name : string;
  _description : string;
  _owner_id : string;
  _is_active : bool;
}.

Definition set_id (v : string) (m : t) : t :=
  mk v (_created_at m) (_updated_at m) (_name m) (_description m)
     (_owner_id m) (_is_active m).
Definition set_created_at (v : datetime) (m : t) : t :=
  mk (_id m) v (_updated_at m) (_name m) (_description m)
     (_owner_id m) (_is_active m).
Definition set_updated_at (v : datetime) (m : t) : t :=
  mk (_id m) (_created_at m) v (_name m) (_description m)
     (_owner_id m) (_is_active m).
Definition set_name (v : string) (m : t) : t :=
  mk (_id m) (_created_at m) (_updated_at m) v (_description m)
     (_owner_id m) (_is_active m).
Definition set_description (v : string) (m : t) : t :=
  mk (_id m) (_created_at m) (_updated_at m) (_name m) v
     (_owner_id m) (_is_active m).
Definition set_owner_id (v : string) (m : t) : t :=
  mk (_id m) (_created_at m) (_updated_at m) (_name m) (_description m)
     v (_is_active m).
Definition set_is_active (v : bool) (m : t) : t :=
  mk (_id m) (_created_at m) (_updated_at m) (_name m) (_description m)
     (_owner_id m) v.

(** [ExampleModel.__init__], which runs [BaseModel.__init__] first. *)
Definition init (a : Ambient) : t :=
  mk (uuid4 a) (utcnow_created a) (utcnow_updated a) "" "" "" true.

(** [not s or not s.strip()] *)
Definition blank (s : string) : bool :=
  Py.not_ s || Py.not_ (Py.strip s).

(** [BaseModel.validate] *)
Definition base_validate (m : t) : result unit :=
  if Py.not_ (_id m) then Raise (ValueError "Model ID cannot be empty")
  else Ok tt.

(** [ExampleModel.validate] *)
Definition validate (m : t) : result unit :=
  do! _ <- base_validate m;
  if blank (_name m) then
    Raise (ValueError "Example name cannot be empty")
  else if 100 <? Py.len (_name m) then
    Raise (ValueError "Example name cannot exceed 100 characters")
  else if blank (_owner_id m) then
    Raise (ValueError "Example must have an owner")
  else Ok tt.

(** [ExampleModel.create] *)
Definition create (a : Ambient) (p_name p_description p_owner_id : string)
  : result t :=
  let model := init a in
  let model := set_name p_name model in
  let model := set_description p_description model in
  let model := set_owner_id p_owner_id model in
  let model := set_is_active true model in
  do! _ <- validate model;
  Ok model.

(** [ExampleModel.hydrate] *)
Definition hydrate (a : Ambient) (p_id p_name p_description p_owner_id : string)
    (p_is_active : bool) (p_created_at p_updated_at : datetime) : t :=
  let model := init a in
  let model := set_id p_id model in
  let model := set_name p_name model in
  let model := set_description p_description model in
  let model := set_owner_id p_owner_id model in
  let model := set_is_active p_is_active model in
  let model := set_created_at p_created_at model in
  let model := set_updated_at p_updated_at model in
  model.

(** [ExampleModel.update_details] mutates [self]: the second component is
    the object after the call, also when the call raises.  [now] is what
    [datetime.utcnow()] returns. *)
Definition update_details (now : datetime) (self : t)
    (p_name p_description : string) : result unit * t :=
  if blank p_name then (Raise (ValueError "Name cannot be empty"), self)
  else
    let self := set_name p_name self in
    let self := set_description p_description self in
    let self := set_updated_at now self in
    (validate self, self).

(** [ExampleModel.activate] and [ExampleModel.deactivate] *)
Definition activate (now : datetime) (self : t) : t :=
  set_updated_at now (set_is_active true self).

Definition deactivate (now : datetime) (self : t) : t :=
  set_updated_at now (set_is_active false self).

(** [ExampleModel.validate_ownership] *)
Definition validate_ownership (self : t) (p_user_id : string) : result unit :=
  if negb (String.eqb (_owner_id self) p_user_id)
  then Raise (PermissionError "User does not own this resource")
  else Ok tt.

End ExampleModel.

(** ** Persistence entities: [infrastructure/persistence] *)

Module ExampleWriteEntity.

(** [BaseEntity] ([id], [created_at], [updated_at]), [BaseWriteEntity]
    ([version]) and [ExampleWriteEntity]. *)
Record t := mk {
  id : string;
  created_at : datetime;
  updated_at : datetime;
  version : Z;
  name : string;
  description : string;
  owner_id : string;
  is_active : bool;
}.

(** [ExampleWriteEntity.__init__] through [BaseWriteEntity.__init__] and
    [BaseEntity.__init__]. *)
Definition init (a : Ambient) : t :=
  mk "" (utcnow_created a) (utcnow_updated a) 0 "" "" "" true.

End ExampleWriteEntity.

Module ExampleReadEntity.

Record t := mk {
  id : string;
  created_at : datetime;
  updated_at : datetime;
  name : string;
  description : string;
  owner_id : string;
  owner_name : string;
  is_active : bool;
  display_name : string;
  status_text : string;
}.

Definition init (a : Ambient) : t :=
  mk "" (utcnow_created a) (utcnow_updated a) "" "" "" "" true "" "".

End ExampleReadEntity.

(** ** Transport objects: [api/dto] *)

Module CreateExampleRequest.

Record t := mk {
  request_id : string;
  name : string;
  description : string;
}.

(** [CreateExampleRequest.validate], the edge validation. *)
Definition validate (self : t) : result unit :=
  if ExampleModel.blank (name self) then
    Raise (ValueError "Name is required")
  else if 100 <? Py.len (name self) then
    Raise (ValueError "Name cannot exceed 100 characters")
  else if 500 <? Py.len (description self) then
    Raise (ValueError "Description cannot exceed 500 characters")
  else Ok tt.

End CreateExampleRequest.

Module UpdateExampleRequest.

Record t := mk {
  request_id : string;
  name : string;
  description : string;
}.

Definition validate (self : t) : result unit :=
  if ExampleModel.blank (name self) then
    Raise (ValueError "Name is required")
  else if 100 <? Py.len (name self) then
    Raise (ValueError "Name cannot exceed 100 characters")
  else if 500 <? Py.len (description self) then
    Raise (ValueError "Description cannot exceed 500 characters")
  else Ok tt.

End UpdateExampleRequest.

Module ExampleResponse.

(** [BaseResponseDto] ([request_id], [timestamp]) and [ExampleResponse]. *)
Record t := mk {
  request_id : string;
  timestamp : datetime;
  id : string;
  name : string;
  description : string;
  owner_id : string;
  owner_name : string;
  is_active : bool;
  display_name : string;
  status_text : string;
  created_at : datetime;
  updated_at : datetime;
}.

(** [ExampleResponse()]: the defaults of the dataclass, then the three
    clock readings of [__post_init__] ([timestamp], [created_at],
    [updated_at]). *)
Definition init (now : datetime) (a : Ambient) : t :=
  mk "" now "" "" "" "" "" true "" "" (utcnow_created a) (utcnow_updated a).

End ExampleResponse.

(** ** Mapper: [application/mappers/example_mapper.py] *)

Module ExampleMapper.

(** [to_model_from_request]: the owner passed to the factory is the empty
    string ("Set by controller from auth context"). *)
Definition to_model_from_request (a : Ambient) (p_dto : CreateExampleRequest.t)
  : result ExampleModel.t :=
  ExampleModel.create a
    (CreateExampleRequest.name p_dto)
    (CreateExampleRequest.description p_dto)
    "".

(** [to_write_entity]: a fresh [ExampleWriteEntity()], then seven field
    assignments; [version] keeps the constructor's value. *)
Definition to_write_entity (a : Ambient) (p_model : ExampleModel.t)
  : ExampleWriteEntity.t :=
  let entity := ExampleWriteEntity.init a in
  ExampleWriteEntity.mk
    (ExampleModel._id p_model)
    (ExampleModel._created_at p_model)
    (ExampleModel._updated_at p_model)
    (ExampleWriteEntity.version entity)
    (ExampleModel._name p_model)
    (ExampleModel._description p_model)
    (ExampleModel._owner_id p_model)
    (ExampleModel._is_active p_model).

(** [to_model_from_write_entity] *)
Definition to_model_from_write_entity (a : Ambient)
    (p_entity : ExampleWriteEntity.t) : ExampleModel.t :=
  ExampleModel.hydrate a
    (ExampleWriteEntity.id p_entity)
    (ExampleWriteEntity.name p_entity)
    (ExampleWriteEntity.description p_entity)
    (ExampleWriteEntity.owner_id p_entity)
    (ExampleWriteEntity.is_active p_entity)
    (ExampleWriteEntity.created_at p_entity)
    (ExampleWriteEntity.updated_at p_entity).

(** [to_response_from_read_entity]: a fresh [ExampleResponse()], whose
    [request_id] stays empty and whose [timestamp] stays the clock reading
    [now], then ten field assignments. *)
Definition to_response_from_read_entity (now : datetime) (a : Ambient)
    (p_entity : ExampleReadEntity.t) : ExampleResponse.t :=
  let response := ExampleResponse.init now a in
  ExampleResponse.mk
    (ExampleResponse.request_id response)
    (ExampleResponse.timestamp response)
    (ExampleReadEntity.id p_entity)
    (ExampleReadEntity.name p_entity)
    (ExampleReadEntity.description p_entity)
    (ExampleReadEntity.owner_id p_entity)
    (ExampleReadEntity.owner_name p_entity)
    (ExampleReadEntity.is_active p_entity)
    (ExampleReadEntity.display_name p_entity)
    (ExampleReadEntity.status_text p_entity)
    (ExampleReadEntity.created_at p_entity)
    (ExampleReadEntity.updated_at p_entity).

(** [to_response_from_model] *)
Definition to_response_from_model (now : datetime) (a : Ambient)
    (p_model : ExampleModel.t) : ExampleResponse.t :=
  let response := ExampleResponse.init now a in
  ExampleResponse.mk
    (ExampleResponse.request_id response)
    (ExampleResponse.timestamp response)
    (ExampleModel._id p_model)
    (ExampleModel._name p_model)
    (ExampleModel._description p_model)
    (ExampleModel._owner_id p_model)
    ""
    (ExampleModel._is_active p_model)
    (ExampleModel._name p_model)
    (if ExampleModel._is_active p_model then "Active" else "Inactive")
    (ExampleModel._created_at p_model)
    (ExampleModel._updated_at p_model).

(** [update_model_from_request] *)
Definition update_model_from_request (now : datetime)
    (p_model : ExampleModel.t) (p_request : UpdateExampleRequest.t)
  : result unit * ExampleModel.t :=
  ExampleModel.update_details now p_model
    (UpdateExampleRequest.name p_request)
    (UpdateExampleRequest.description p_request).

End ExampleMapper.

(** ** Command repository: [repositories/impl/example_command_repository.py]

    [_in_memory_store] is a [dict] from identity to write entity; each method
    takes the store and returns what it returns or raises together with the
    store it leaves. *)

Module ExampleCommandRepository.

(** [f"Example {p_id} not found"] *)
Definition not_found_message (p_id : string) : string :=
  "Example " +:+ p_id +:+ " not found".

(** [save_async] *)
Definition save_async (a : Ambient) (p_model : ExampleModel.t)
    (store : gmap string ExampleWriteEntity.t)
  : result string * gmap string ExampleWriteEntity.t :=
  let entity := ExampleMapper.to_write_entity a p_model in
  (Ok (ExampleWriteEntity.id entity),
   <[ExampleWriteEntity.id entity := entity]> store).

(** [update_async] *)
Definition update_async (a : Ambient) (p_model : ExampleModel.t)
    (store : gmap string ExampleWriteEntity.t)
  : result unit * gmap string ExampleWriteEntity.t :=
  let entity := ExampleMapper.to_write_entity a p_model in
  match store !! ExampleWriteEntity.id entity with
  | Some _ => (Ok tt, <[ExampleWriteEntity.id entity := entity]> store)
  | None =>
      (Raise (ValueError (not_found_message (ExampleWriteEntity.id entity))),
       store)
  end.

(** [delete_async] *)
Definition delete_async (p_id : string)
    (store : gmap string ExampleWriteEntity.t)
  : result unit * gmap string ExampleWriteEntity.t :=
  match store !! p_id with
  | Some _ => (Ok tt, delete p_id store)
  | None => (Raise (ValueError (not_found_message p_id)), store)
  end.

(** [exists_async] *)
Definition exists_async (p_id : string)
    (store : gmap string ExampleWriteEntity.t)
  : result bool * gmap string ExampleWriteEntity.t :=
  (Ok (bool_decide (is_Some (store !! p_id))), store).

(** [find_by_id_for_command_async] *)
Definition find_by_id_for_command_async (a : Ambient) (p_id : string)
    (store : gmap string ExampleWriteEntity.t)
  : result ExampleModel.t * gmap string ExampleWriteEntity.t :=
  match store !! p_id with
  | None => (Raise (ValueError (not_found_message p_id)), store)
  | Some entity => (Ok (ExampleMapper.to_model_from_write_entity a entity), store)
  end.

(** The calls of the repository interface, to run sequences of them. *)
Inductive call :=
| Save (a : Ambient) (p_model : ExampleModel.t)
| Update (a : Ambient) (p_model : ExampleModel.t)
| Delete (p_id : string)
| Exists (p_id : string)
| Find (a : Ambient) (p_id : string).

(** The identity a call deletes or updates, if it does. *)
Definition deleted_or_updated (c : call) : option string :=
  match c with
  | Update _ p_model => Some (ExampleModel._id p_model)
  | Delete p_id => Some p_id
  | Save _ _ | Exists _ | Find _ _ => None
  end.

(** The identity a call writes, if it writes one. *)
Definition written (c : call) : option string :=
  match c with
  | Save _ p_model | Update _ p_model => Some (ExampleModel._id p_model)
  | Delete p_id => Some p_id
  | Exists _ | Find _ _ => None
  end.

Definition run_call (c : call) (store : gmap string ExampleWriteEntity.t)
  : gmap string ExampleWriteEntity.t :=
  match c with
  | Save a p_model => snd (save_async a p_model store)
  | Update a p_model => snd (update_async a p_model store)
  | Delete p_id => snd (delete_async p_id store)
  | Exists p_id => snd (exists_async p_id store)
  | Find a p_id => snd (find_by_id_for_command_async a p_id store)
  end.

Definition run_calls (cs : list call) (store : gmap string ExampleWriteEntity.t)
  : gmap string ExampleWriteEntity.t :=
  foldl (fun s c => run_call c s) store cs.

End ExampleCommandRepository.

(** ** Query repository: [repositories/impl/example_query_repository.py]

    [list(self._in_memory_store.values())] lists the values in insertion
    order, so the store is the list of its items in that order. *)

Module ExampleQueryRepository.

Fixpoint dict_get {A} (p_id : string) (store : list (string * A)) : option A :=
  match store with
  | [] => None
  | (k, v) :: rest => if String.eqb k p_id then Some v else dict_get p_id rest
  end.

(** [find_by_id_async] *)
Definition find_by_id_async (p_id : string)
    (store : list (string * ExampleReadEntity.t)) : option ExampleReadEntity.t :=
  dict_get p_id store.

(** [all_entities]: the full result, in the store's order. *)
Definition all_entities (store : list (string * ExampleReadEntity.t))
  : list ExampleReadEntity.t :=
  map snd store.

(** [list_by_filter_async]: [all_entities[p_skip:p_skip + p_take]] *)
Definition list_by_filter_async (p_skip p_take : Z)
    (store : list (string * ExampleReadEntity.t)) : list ExampleReadEntity.t :=
  Py.slice (all_entities store) p_skip (p_skip + p_take).

End ExampleQueryRepository.

(** ** Domain events: [domain/events] *)

(** [BaseDomainEvent] fields first ([event_id], [timestamp],
    [correlation_id]), then the fields of the event class. *)
Inductive DomainEvent :=
| ExampleCreatedEvent (event_id : string) (timestamp : datetime)
    (correlation_id example_id name owner_id : string)
| ExampleUpdatedEvent (event_id : string) (timestamp : datetime)
    (correlation_id example_id name : string)
| ExampleDeletedEvent (event_id : string) (timestamp : datetime)
    (correlation_id example_id : string).

(** ** Service exceptions: [application/errors] *)

(** [ExampleServiceException._MESSAGE_TEMPLATES] *)
Definition _MESSAGE_TEMPLATES (c : ExampleErrorCode) : option string :=
  Some match c with
       | NOT_FOUND => "Example '{id}' not found"
       | VALIDATION_FAILED => "Validation failed: {reason}"
       | CONFLICT => "Example '{name}' already exists"
       | UNAUTHORIZED => "You are not authorized to access example '{id}'"
       | ALREADY_EXISTS => "Example with name '{name}' already exists"
       end.

(** [code.name] *)
Definition error_code_name (c : ExampleErrorCode) : string :=
  match c with
  | NOT_FOUND => "NOT_FOUND"
  | VALIDATION_FAILED => "VALIDATION_FAILED"
  | CONFLICT => "CONFLICT"
  | UNAUTHORIZED => "UNAUTHORIZED"
  | ALREADY_EXISTS => "ALREADY_EXISTS"
  end.

(** [TypedServiceException._format_message]; [p_details] holds the values
    already converted with [str]. *)
Definition _format_message (p_code : ExampleErrorCode)
    (p_message_templates : ExampleErrorCode -> option string)
    (p_details : list (string * string)) : string :=
  match p_message_templates p_code with
  | None => "Error occurred: " +:+ error_code_name p_code
  | Some template =>
      match p_details with
      | [] => template
      | _ =>
          foldl (fun message kv =>
                   Py.replace ("{" +:+ fst kv +:+ "}") (snd kv) message)
                template p_details
      end
  end.

(** [ExampleServiceException(p_code, p_details)] *)
Definition new_ExampleServiceException (p_code : ExampleErrorCode)
    (p_details : list (string * string)) : exn :=
  ExampleServiceException p_code p_details
    (_format_message p_code _MESSAGE_TEMPLATES p_details).

(** [str(ex)] *)
Definition exn_str (e : exn) : string :=
  match e with
  | ValueError msg | PermissionError msg | AttributeError msg
  | OtherException msg | CancelledError msg | OtherBaseException msg => msg
  | ExampleServiceException _ _ message => message
  end.

(** ** Requests and responses seen by the middleware *)

Module Request.

(** The attributes of the framework request that the middleware sources
    mention: [method], [url.path], [state.user_id], [path_params.get("id")]. *)
Record t := mk {
  method : string;
  path : string;
  state_user_id : string;
  path_params_id : option string;
}.

End Request.

Module ErrorResponseDto.

(** [api/dto/responses/error_response_dto.py] *)
Record t := mk {
  code : string;
  message : string;
  timestamp : datetime;
  path : string;
  request_id : string;
  details : option (list (string * string));
}.

End ErrorResponseDto.

(** What a stage returns: a framework response with its status code, or
    the [ErrorResponseDto] the error-handling stage returns as it is. *)
Inductive Response :=
| HttpResponse (status_code : Z)
| ErrorResponse (dto : ErrorResponseDto.t).

(** ** Unit of work: [repositories/infra/i_unit_of_work.py]

    The interface is abstract; an implementation has a state of its own and
    each method may raise. *)
Class IUnitOfWork (U : Type) := {
  begin_transaction_async : U -> result unit * U;
  commit_async : U -> result unit * U;
  rollback_async : U -> result unit * U;
  save_changes_async : U -> result unit * U;
}.

(** ** The observable actions of one request *)

(** A subscribed handler, a coroutine function registered on the bus. *)
Definition Handler := nat.

Inductive Action :=
| UowBegin
| UowCommit
| UowRollback
| RepoSave (p_id : string)
| RepoUpdate (p_id : string)
| RepoDelete (p_id : string)
| RepoFind (p_id : string)
| Delivered (p_topic : string) (handler : Handler) (p_event : DomainEvent).

(** Every delivery in the trace has a commit before it. *)
Fixpoint delivered_after_commit_from (committed : bool) (tr : list Action)
  : bool :=
  match tr with
  | [] => true
  | UowCommit :: tr' => delivered_after_commit_from true tr'
  | Delivered _ _ _ :: tr' =>
      committed && delivered_after_commit_from committed tr'
  | _ :: tr' => delivered_after_commit_from committed tr'
  end.

Definition delivered_after_commit (tr : list Action) : bool :=
  delivered_after_commit_from false tr.

Definition is_delivery (a : Action) : bool :=
  match a with Delivered _ _ _ => true | _ => false end.

Definition is_rollback (a : Action) : bool :=
  match a with UowRollback => true | _ => false end.

(** A trace with a rollback holds no delivery. *)
Definition rollback_discards_events (tr : list Action) : bool :=
  negb (existsb is_rollback tr) || negb (existsb is_delivery tr).

(** ** The state the stages of one request share *)

(** What [uuid.uuid4()] and [datetime.utcnow()] return at the n-th read. *)
Record Environment := {
  env_uuid4 : nat -> string;
  env_utcnow : nat -> datetime;
}.

Record World (U : Type) := mkWorld {
  command_store : gmap string ExampleWriteEntity.t;
  query_store : list (string * ExampleReadEntity.t);
  _subscribers : gmap string (list Handler);
  unit_of_work : U;
  reads : nat;
}.
Arguments mkWorld {U}.
Arguments command_store {U}.
Arguments query_store {U}.
Arguments _subscribers {U}.
Arguments unit_of_work {U}.
Arguments reads {U}.

Definition set_command_store {U} (v : gmap string ExampleWriteEntity.t)
    (w : World U) : World U :=
  mkWorld v (query_store w) (_subscribers w) (unit_of_work w) (reads w).

Definition set_subscribers {U} (v : gmap string (list Handler))
    (w : World U) : World U :=
  mkWorld (command_store w) (query_store w) v (unit_of_work w) (reads w).

Definition set_unit_of_work {U} (v : U) (w : World U) : World U :=
  mkWorld (command_store w) (query_store w) (_subscribers w) v (reads w).

Definition set_reads {U} (v : nat) (w : World U) : World U :=
  mkWorld (command_store w) (query_store w) (_subscribers w)
          (unit_of_work w) v.

(** An awaited call: from the world before it to what it returns or raises,
    the world after it and the actions it performed, in order. *)
Definition M (U A : Type) : Type := World U -> result A * World U * list Action.

Definition ret {U A} (a : A) : M U A := fun w => (Ok a, w, []).

Definition raise {U A} (e : exn) : M U A := fun w => (Raise e, w, []).

Definition bind {U A B} (m : M U A) (k : A -> M U B) : M U B :=
  fun w =>
    match m w with
    | (Ok a, w1, l1) => let '(r, w2, l2) := k a w1 in (r, w2, l1 ++ l2)
    | (Raise e, w1, l1) => (Raise e, w1, l1)
    end.

(** [try: m except Exception as e: h e]: the handler runs for an
    instance of [Exception]; any other raise propagates as it is. *)
Definition try_except {U A} (m : M U A) (h : exn -> M U A) : M U A :=
  fun w =>
    match m w with
    | (Ok a, w1, l1) => (Ok a, w1, l1)
    | (Raise e, w1, l1) =>
        if is_Exception e
        then let '(r, w2, l2) := h e w1 in (r, w2, l1 ++ l2)
        else (Raise e, w1, l1)
    end.

Definition lift_result {U A} (r : result A) : M U A := fun w => (r, w, []).

Notation "'await!' x <- c ; k" := (bind c (fun x => k))
  (at level 10, x name, c at level 100, k at level 200).

Definition outcome {U A} (o : result A * World U * list Action) : result A :=
  fst (fst o).
Definition world_after {U A} (o : result A * World U * list Action) : World U :=
  snd (fst o).
Definition trace {U A} (o : result A * World U * list Action) : list Action :=
  snd o.

Section Application.

Context {U : Type} `{IUnitOfWork U}.
Variable env : Environment.

(** *** Reading the environment *)

(** What [ExampleModel()] reads when it is constructed at read [n]. *)
Definition model_ambient_at (n : nat) : Ambient :=
  Build_Ambient (env_uuid4 env n)
    (env_utcnow env (n + 1)) (env_utcnow env (n + 2)).

(** What an entity constructor reads: the two clock readings. *)
Definition entity_ambient_at (n : nat) : Ambient :=
  Build_Ambient "" (env_utcnow env n) (env_utcnow env (n + 1)).

Definition utcnow : M U datetime :=
  fun w => (Ok (env_utcnow env (reads w)), set_reads (S (reads w)) w, []).

Definition uuid4_str : M U string :=
  fun w => (Ok (env_uuid4 env (reads w)), set_reads (S (reads w)) w, []).

(** *** Unit of work calls, recorded when they are made *)

Definition uow_call (act : Action) (f : U -> result unit * U) : M U unit :=
  fun w =>
    let '(r, u) := f (unit_of_work w) in
    (r, set_unit_of_work u w, [act]).

Definition uow_begin : M U unit := uow_call UowBegin begin_transaction_async.
Definition uow_commit : M U unit := uow_call UowCommit commit_async.
Definition uow_rollback : M U unit := uow_call UowRollback rollback_async.

(** *** Event bus: [infrastructure/queues/in_memory_event_bus.py] *)

(** [self._subscribers.get(p_topic, [])] *)
Definition handlers_of (p_topic : string) (w : World U) : list Handler :=
  default [] (_subscribers w !! p_topic).

(** [publish_async]: every subscribed handler is called with the event
    inside the call; [asyncio.gather(..., return_exceptions=True)] keeps what
    a handler raises, so the call itself returns.  The calls are recorded in
    list order; what a handler does beyond being called is not modelled. *)
Definition publish_async (p_event : DomainEvent) (p_topic : string) : M U unit :=
  fun w =>
    (Ok tt, w, map (fun h => Delivered p_topic h p_event) (handlers_of p_topic w)).

(** [subscribe_async] *)
Definition subscribe_async (p_topic : string) (p_handler : Handler) : M U unit :=
  fun w =>
    (Ok tt,
     set_subscribers
       (<[p_topic := handlers_of p_topic w ++ [p_handler]]> (_subscribers w)) w,
     []).

(** *** The command repository as the service awaits it *)

(** A repository method [f] run on the world's store; [cost] is the number
    of environment reads its constructors made. *)
Definition repo_call {A} (act : Action) (cost : result A -> nat)
    (f : gmap string ExampleWriteEntity.t ->
         result A * gmap string ExampleWriteEntity.t) : M U A :=
  fun w =>
    let '(r, store) := f (command_store w) in
    (r, set_reads (reads w + cost r) (set_command_store store w), [act]).

Definition save_async (p_model : ExampleModel.t) : M U string :=
  fun w =>
    repo_call (RepoSave (ExampleModel._id p_model)) (fun _ => 2%nat)
      (ExampleCommandRepository.save_async (entity_ambient_at (reads w)) p_model)
      w.

Definition update_async (p_model : ExampleModel.t) : M U unit :=
  fun w =>
    repo_call (RepoUpdate (ExampleModel._id p_model)) (fun _ => 2%nat)
      (ExampleCommandRepository.update_async (entity_ambient_at (reads w)) p_model)
      w.

Definition delete_async (p_id : string) : M U unit :=
  repo_call (RepoDelete p_id) (fun _ => 0%nat)
    (ExampleCommandRepository.delete_async p_id).

Definition find_by_id_for_command_async (p_id : string) : M U ExampleModel.t :=
  fun w =>
    repo_call (RepoFind p_id) (fun r => if is_ok r then 3%nat else 0%nat)
      (ExampleCommandRepository.find_by_id_for_command_async
         (model_ambient_at (reads w)) p_id)
      w.

(** *** Event constructors *)

Definition new_ExampleCreatedEvent
    (p_example_id p_name p_owner_id p_correlation_id : string) : M U DomainEvent :=
  await! event_id <- uuid4_str;
  await! timestamp <- utcnow;
  ret (ExampleCreatedEvent event_id timestamp p_correlation_id
         p_example_id p_name p_owner_id).

Definition new_ExampleUpdatedEvent
    (p_example_id p_name p_correlation_id : string) : M U DomainEvent :=
  await! event_id <- uuid4_str;
  await! timestamp <- utcnow;
  ret (ExampleUpdatedEvent event_id timestamp p_correlation_id
         p_example_id p_name).

Definition new_ExampleDeletedEvent
    (p_example_id p_correlation_id : string) : M U DomainEvent :=
  await! event_id <- uuid4_str;
  await! timestamp <- utcnow;
  ret (ExampleDeletedEvent event_id timestamp p_correlation_id p_example_id).

(** *** Service: [application/services/impl/example_service.py] *)

(** [self._mapper.to_model_from_request(p_request)] *)
Definition mapper_to_model_from_request (p_request : CreateExampleRequest.t)
  : M U ExampleModel.t :=
  fun w =>
    (ExampleMapper.to_model_from_request (model_ambient_at (reads w)) p_request,
     set_reads (reads w + 3) w, []).

(** [self._mapper.update_model_from_request(model, p_request)]: the model
    after the call when it returns; when it raises the local model is
    dropped with the frame. *)
Definition mapper_update_model_from_request (p_model : ExampleModel.t)
    (p_request : UpdateExampleRequest.t) : M U ExampleModel.t :=
  fun w =>
    let '(r, model) :=
      ExampleMapper.update_model_from_request (env_utcnow env (reads w))
        p_model p_request in
    (do! _ <- r; Ok model,
     set_reads
       (reads w +
        (if ExampleModel.blank (UpdateExampleRequest.name p_request)
         then 0 else 1)) w,
     []).

(** The ownership check of the use cases: a [PermissionError] becomes an
    [UNAUTHORIZED] service exception. *)
Definition check_ownership (model : ExampleModel.t) (p_id p_user_id : string)
  : M U unit :=
  match ExampleModel.validate_ownership model p_user_id with
  | Ok _ => ret tt
  | Raise (PermissionError _) =>
      raise (new_ExampleServiceException UNAUTHORIZED [("id", p_id)])
  | Raise e => raise e
  end.

(** [create_example_async] *)
Definition create_example_async (p_request : CreateExampleRequest.t)
    (p_user_id p_correlation_id : string) : M U string :=
  await! model <- mapper_to_model_from_request p_request;
  let model := ExampleModel.set_owner_id p_user_id model in
  await! example_id <- save_async model;
  await! event <-
    new_ExampleCreatedEvent example_id (ExampleModel._name model)
      p_user_id p_correlation_id;
  await! _ <- publish_async event "example.created";
  ret example_id.

(** [update_example_async].  The repository returns a model or raises, so
    the [if model is None] guard after the load never fires. *)
Definition update_example_async (p_id : string)
    (p_request : UpdateExampleRequest.t) (p_user_id : string) : M U unit :=
  await! model <- find_by_id_for_command_async p_id;
  await! _ <- check_ownership model p_id p_user_id;
  await! model <- mapper_update_model_from_request model p_request;
  await! _ <- update_async model;
  await! event <- new_ExampleUpdatedEvent p_id (ExampleModel._name model) "";
  publish_async event "example.updated".

(** [delete_example_async] *)
Definition delete_example_async (p_id p_user_id : string) : M U unit :=
  await! model <- find_by_id_for_command_async p_id;
  await! _ <- check_ownership model p_id p_user_id;
  await! _ <- delete_async p_id;
  await! event <- new_ExampleDeletedEvent p_id "";
  publish_async event "example.deleted".

(** [activate_example_async] and [deactivate_example_async] *)
Definition activate_example_async (p_id p_user_id : string) : M U unit :=
  await! model <- find_by_id_for_command_async p_id;
  await! _ <- check_ownership model p_id p_user_id;
  await! now <- utcnow;
  update_async (ExampleModel.activate now model).

Definition deactivate_example_async (p_id p_user_id : string) : M U unit :=
  await! model <- find_by_id_for_command_async p_id;
  await! _ <- check_ownership model p_id p_user_id;
  await! now <- utcnow;
  update_async (ExampleModel.deactivate now model).

(** [get_example_async]: the query side, where an absent entity becomes a
    [NOT_FOUND] service exception. *)
Definition get_example_async (p_id : string) : M U ExampleResponse.t :=
  fun w =>
    match ExampleQueryRepository.find_by_id_async p_id (query_store w) with
    | None => raise (new_ExampleServiceException NOT_FOUND [("id", p_id)]) w
    | Some entity =>
        (await! now <- utcnow;
         await! created <- utcnow;
         await! updated <- utcnow;
         ret (ExampleMapper.to_response_from_read_entity now
                (Build_Ambient "" created updated) entity)) w
    end.

(** The list comprehension of [list_examples_async]: one
    [to_response_from_read_entity] per entity, in order, each constructing
    an [ExampleResponse()] with its three clock readings. *)
Fixpoint responses_of (entities : list ExampleReadEntity.t)
  : M U (list ExampleResponse.t) :=
  match entities with
  | [] => ret []
  | entity :: rest =>
      await! now <- utcnow;
      await! created <- utcnow;
      await! updated <- utcnow;
      await! responses <- responses_of rest;
      ret (ExampleMapper.to_response_from_read_entity now
             (Build_Ambient "" created updated) entity :: responses)
  end.

(** [list_examples_async] *)
Definition list_examples_async (p_skip p_take : Z)
  : M U (list ExampleResponse.t) :=
  fun w =>
    responses_of
      (ExampleQueryRepository.list_by_filter_async p_skip p_take (query_store w))
      w.

(** *** Controller and routes: [api/controllers], [main.py] *)

(** [BaseController.get_user_id] and [get_correlation_id] *)
Definition get_user_id : string := "user-123".
Definition get_correlation_id : string := "correlation-123".

(** [ExampleController.create_example] behind its route (status 201). *)
Definition create_example_route (p_request : CreateExampleRequest.t)
  : M U Response :=
  await! _ <- lift_result (CreateExampleRequest.validate p_request);
  await! _ <- create_example_async p_request get_user_id get_correlation_id;
  ret (HttpResponse 201).

(** [ExampleController.update_example] behind its route (status 204). *)
Definition update_example_route (p_id : string)
    (p_request : UpdateExampleRequest.t) : M U Response :=
  await! _ <- lift_result (UpdateExampleRequest.validate p_request);
  await! _ <- update_example_async p_id p_request get_user_id;
  ret (HttpResponse 204).

(** [ExampleController.delete_example] behind its route (status 204). *)
Definition delete_example_route (p_id : string) : M U Response :=
  await! _ <- delete_example_async p_id get_user_id;
  ret (HttpResponse 204).

(** [ExampleController.get_example] behind its route: the framework's
    default status 200; the body, the [ExampleResponse], is not kept in
    [Response]. *)
Definition get_example_route (p_id : string) : M U Response :=
  await! _ <- get_example_async p_id;
  ret (HttpResponse 200).

(** *** Middleware: [api/middleware] *)

(** [response.status_code]; an [ErrorResponseDto] has no such attribute. *)
Definition status_code_of (response : Response) : M U Z :=
  match response with
  | HttpResponse status_code => ret status_code
  | ErrorResponse _ =>
      raise (AttributeError
               "'ErrorResponseDto' object has no attribute 'status_code'")
  end.

(** [p_request.method in ["POST", "PUT", "PATCH", "DELETE"]] *)
Definition is_mutating (p_request : Request.t) : bool :=
  existsb (String.eqb (Request.method p_request))
          ["POST"; "PUT"; "PATCH"; "DELETE"].

(** [UnitOfWorkMiddleware.__call__] *)
Definition UnitOfWorkMiddleware (p_request : Request.t)
    (p_call_next : Request.t -> M U Response) : M U Response :=
  if negb (is_mutating p_request) then p_call_next p_request
  else
    try_except
      (await! _ <- uow_begin;
       await! response <- p_call_next p_request;
       await! status_code <- status_code_of response;
       await! _ <- (if status_code <? 400 then uow_commit else uow_rollback);
       ret response)
      (fun e =>
         await! _ <- uow_rollback;
         raise e).

(** [OwnershipMiddleware.__call__]: the extraction of the user and resource
    identities and the verification are comments in the source; both
    branches call the next stage. *)
Definition OwnershipMiddleware (p_request : Request.t)
    (p_call_next : Request.t -> M U Response) : M U Response :=
  if String.eqb (Request.method p_request) "GET" then p_call_next p_request
  else p_call_next p_request.

(** [CorrelationIdMiddleware.__call__]: the default of [getattr] is
    evaluated, the identifier is not stored. *)
Definition CorrelationIdMiddleware (p_request : Request.t)
    (p_call_next : Request.t -> M U Response) : M U Response :=
  await! correlation_id <- uuid4_str;
  p_call_next p_request.

(** The argument of [_map_error_code_to_status]: an enum member, which has
    a [value], or a plain string. *)
Inductive error_code_arg :=
| EnumCode (c : ExampleErrorCode)
| StrCode (s : string).

(** [ErrorHandlingMiddleware._map_error_code_to_status] *)
Definition _map_error_code_to_status (p_code : error_code_arg) : Z :=
  let code_str :=
    match p_code with
    | EnumCode c => Py.upper (error_code_value c)
    | StrCode s => Py.upper s
    end in
  if Py.contains "NOT_FOUND" code_str then 404
  else if Py.contains "CONFLICT" code_str || Py.contains "ALREADY_EXISTS" code_str
  then 409
  else if Py.contains "VALIDATION" code_str then 400
  else if Py.contains "UNAUTHORIZED" code_str then 401
  else if Py.contains "FORBIDDEN" code_str then 403
  else 500.

(** [ErrorHandlingMiddleware.__call__]: a [ServiceException] becomes a DTO
    with its code, anything else the generic [INTERNAL_ERROR] DTO (the
    printing of the unexpected error is not modelled). *)
Definition ErrorHandlingMiddleware (p_request : Request.t)
    (p_call_next : Request.t -> M U Response) : M U Response :=
  try_except (p_call_next p_request)
    (fun ex =>
       match ex with
       | ExampleServiceException error_code details _ =>
           let status_code := _map_error_code_to_status (EnumCode error_code) in
           await! timestamp <- utcnow;
           ret (ErrorResponse
                  (ErrorResponseDto.mk (error_code_value error_code)
                     (exn_str ex) timestamp "" "" (Some details)))
       | _ =>
           await! timestamp <- utcnow;
           ret (ErrorResponse
                  (ErrorResponseDto.mk "INTERNAL_ERROR"
                     "An unexpected error occurred" timestamp "" "" None))
       end).

(** The stages in the documented order, outermost first: error handling,
    correlation id, ownership, unit of work, then the terminal handler. *)
Definition pipeline (p_request : Request.t)
    (handler : Request.t -> M U Response) : M U Response :=
  ErrorHandlingMiddleware p_request (fun r =>
    CorrelationIdMiddleware r (fun r =>
      OwnershipMiddleware r (fun r =>
        UnitOfWorkMiddleware r handler))).

End Application.

(** ** Unit of work implementations used to run the pipeline *)

(** Modelled from the spec: the concrete [UnitOfWork] class
    ([infrastructure/repositories/infra/unit_of_work.py]) is not among the
    sources.  The coordinator of section 4.5: [begin] takes IDLE to ACTIVE
    and fails when already ACTIVE; [commit] and [rollback] end an ACTIVE
    transaction and reset to IDLE; [save_changes] is valid only in ACTIVE.
    What [commit] and [rollback] do in IDLE is not stated there; here they
    raise, like [save_changes]. *)
Inductive CoordinatorState := IDLE | ACTIVE.

Definition coordinator_begin (s : CoordinatorState)
  : result unit * CoordinatorState :=
  match s with
  | IDLE => (Ok tt, ACTIVE)
  | ACTIVE => (Raise (OtherException "transaction already active"), ACTIVE)
  end.

Definition coordinator_end (s : CoordinatorState)
  : result unit * CoordinatorState :=
  match s with
  | ACTIVE => (Ok tt, IDLE)
  | IDLE => (Raise (OtherException "no active transaction"), IDLE)
  end.

Definition coordinator_save_changes (s : CoordinatorState)
  : result unit * CoordinatorState :=
  match s with
  | ACTIVE => (Ok tt, ACTIVE)
  | IDLE => (Raise (OtherException "no active transaction"), IDLE)
  end.

#[export] Instance coordinator_uow : IUnitOfWork CoordinatorState := {
  begin_transaction_async := coordinator_begin;
  commit_async := coordinator_end;
  rollback_async := coordinator_end;
  save_changes_async := coordinator_save_changes;
}.

(** A unit of work over the same states whose commit is refused, as when
    the database rejects the transaction at commit time. *)
Definition refused_commit_uow : IUnitOfWork CoordinatorState :=
  Build_IUnitOfWork CoordinatorState
    coordinator_begin
    (fun s => (Raise (OtherException "commit refused"), s))
    coordinator_end
    coordinator_save_changes.

(** ** The sibling template: [infrastructures/rest-ddd/python/src] *)

Module RestDdd.

(** [infrastructure/persistence/write/base_write_entity.py] *)
Module BaseWriteEntity.

Record t := mk {
  _id : option string;
  _version : Z;
  _created_at : datetime;
  _updated_at : datetime;
}.

(** [p_version or 1]: [None] and [0] are both falsy. *)
Definition version_or_1 (p_version : option Z) : Z :=
  match p_version with
  | Some v => if v =? 0 then 1 else v
  | None => 1
  end.

(** [BaseWriteEntity.__init__]; [now_created] and [now_updated] are what
    [datetime.utcnow()] returns where a timestamp is not given (a
    [datetime] is always truthy). *)
Definition init (now_created now_updated : datetime)
    (p_id : option string) (p_version : option Z)
    (p_created_at p_updated_at : option datetime) : t :=
  mk p_id (version_or_1 p_version)
     (default now_created p_created_at)
     (default now_updated p_updated_at).

(** [increment_version] *)
Definition increment_version (now : datetime) (self : t) : t :=
  mk (_id self) (_version self + 1) (_created_at self) now.

(** [increment_version] called once per clock reading of [nows]. *)
Definition increment_versions (nows : list datetime) (self : t) : t :=
  foldl (fun e now => increment_version now e) self nows.

End BaseWriteEntity.

Section Middleware.

Context {U : Type} `{IUnitOfWork U}.

(** [getattr(response, 'status_code', 200)] *)
Definition status_code_or_200 (response : Response) : Z :=
  match response with
  | HttpResponse status_code => status_code
  | ErrorResponse _ => 200
  end.

(** [api/middleware/unit_of_work_middleware.py], [UnitOfWorkMiddleware.__call__]:
    the interface has the methods of [IUnitOfWork] under the names
    [begin_transaction], [commit], [rollback], [save_changes]; every request
    is wrapped, whatever its method. *)
Definition UnitOfWorkMiddleware (p_request : Request.t)
    (p_call_next : Request.t -> M U Response) : M U Response :=
  try_except
    (await! _ <- uow_begin;
     await! response <- p_call_next p_request;
     let status_code := status_code_or_200 response in
     await! _ <- (if status_code <? 400 then uow_commit else uow_rollback);
     ret response)
    (fun e =>
       await! _ <- uow_rollback;
       raise e).

End Middleware.

End RestDdd.

(** ** Concrete inputs *)

Definition env0 : Environment :=
  Build_Environment
    (fun n => "uuid-" +:+ String (ascii_of_nat (48 + n mod 10)) "")
    (fun n => 1000 + Z.of_nat n).

Definition ambient0 : Ambient := Build_Ambient "uuid-0" 1000 1001.

(** A stored example owned by the controller's user. *)
Definition widget_entity : ExampleWriteEntity.t :=
  ExampleWriteEntity.mk "ex-1" 10 20 0 "Widget" "first" "user-123" true.

Definition widget_model : ExampleModel.t :=
  ExampleModel.mk "ex-1" 10 20 "Widget" "first" "user-123" true.

Definition widget_store : gmap string ExampleWriteEntity.t :=
  {[ "ex-1" := widget_entity ]}.

(** One handler, number 7, subscribed to ["example.updated"]. *)
Definition widget_world : World CoordinatorState :=
  mkWorld widget_store [] {[ "example.updated" := [7%nat] ]} IDLE 0.

Definition put_widget : Request.t :=
  Request.mk "PUT" "/api/v1/examples/ex-1" "user-123" (Some "ex-1").

Definition gadget_update : UpdateExampleRequest.t :=
  UpdateExampleRequest.mk "req-1" "Gadget" "second".

Definition widget_create : CreateExampleRequest.t :=
  CreateExampleRequest.mk "req-0" "Widget" "".

(** A delete sent by a user who does not own ["ex-1"]. *)
Definition delete_by_stranger : Request.t :=
  Request.mk "DELETE" "/api/v1/examples/ex-1" "user-999" (Some "ex-1").

Definition read_entity (p_id p_name : string) : ExampleReadEntity.t :=
  ExampleReadEntity.mk p_id 10 20 p_name "" "user-123" "Ann" true p_name "Active".

Definition three_read_entities : list (string * ExampleReadEntity.t) :=
  [("a", read_entity "a" "A"); ("b", read_entity "b" "B");
   ("c", read_entity "c" "C")].

(** ** Where validated models come from

    The models the sources hand around after validating them: the result of
    the [create] factory, a model after an [update_details] that returned,
    after [activate] or [deactivate], after the service's owner assignment
    with a non-blank user, and the model hydrated back from the write
    projection of such a model. *)
Inductive validated : ExampleModel.t -> Prop :=
| validated_create a p_name p_description p_owner_id m :
    ExampleModel.create a p_name p_description p_owner_id = Ok m ->
    validated m
| validated_update_details now m p_name p_description m' :
    validated m ->
    ExampleModel.update_details now m p_name p_description = (Ok tt, m') ->
    validated m'
| validated_activate now m :
    validated m -> validated (ExampleModel.activate now m)
| validated_deactivate now m :
    validated m -> validated (ExampleModel.deactivate now m)
| validated_owner p_user_id m :
    validated m ->
    ExampleModel.blank p_user_id = false ->
    validated (ExampleModel.set_owner_id p_user_id m)
| validated_hydrate a a' m :
    validated m ->
    validated
      (ExampleMapper.to_model_from_write_entity a
         (ExampleMapper.to_write_entity a' m)).

(** The typed not-found error of the service layer. *)
Definition typed_not_found {A} (r : result A) : Prop :=
  exists details message,
    r = Raise (ExampleServiceException NOT_FOUND details message).

(** * Properties *)

(** ** The domain model and the mapper *)

Section ModelFacts.

Import ExampleModel.

Lemma blank_empty : blank "" = true.
Proof. reflexivity. Qed.

(** [validate] returns exactly when the identity is not empty, the name is
    not blank and has at most 100 characters, and the owner is not blank. *)
Lemma validate_ok_iff (m : t) :
  validate m = Ok tt <->
  Py.not_ (_id m) = false /\ blank (_name m) = false /\
  Py.len (_name m) <= 100 /\ blank (_owner_id m) = false.
Proof.
  unfold validate, base_validate, result_bind.
  destruct (Py.not_ (_id m)), (blank (_name m)); simpl;
    try (split; [discriminate | intros (? & ? & ? & ?); discriminate]).
  destruct (Z.ltb_spec 100 (Py.len (_name m)));
    [split; [discriminate | intros (_ & _ & ? & _); lia] |].
  destruct (blank (_owner_id m));
    [split; [discriminate | intros (_ & _ & _ & ?); discriminate] |].
  split; auto.
Qed.

(** Whatever [validate] raises is a [ValueError]. *)
Lemma validate_raises_value_error (m : t) (e : exn) :
  validate m = Raise e -> exists msg, e = ValueError msg.
Proof.
  unfold validate, base_validate, result_bind.
  repeat match goal with
         | |- context [if ?b then _ else _] => destruct b
         end;
    intros [= <-]; eauto.
Qed.

Lemma create_ok_validate a p_name p_description p_owner_id m :
  create a p_name p_description p_owner_id = Ok m -> validate m = Ok tt.
Proof.
  unfold create, result_bind.
  match goal with |- context [validate ?x] => destruct (validate x) as [[]|] eqn:E end;
    [intros [= <-]; exact E | discriminate].
Qed.

Lemma update_details_ok_validate now m p_name p_description m' :
  update_details now m p_name p_description = (Ok tt, m') -> validate m' = Ok tt.
Proof.
  unfold update_details.
  destruct (blank p_name); [discriminate |].
  intros [= Hv <-]. exact Hv.
Qed.

(** Hydrating the write projection of a model gives the model back. *)
Lemma hydrate_to_write_entity a a' (m : t) :
  ExampleMapper.to_model_from_write_entity a (ExampleMapper.to_write_entity a' m)
  = m.
Proof. destruct m; reflexivity. Qed.

End ModelFacts.

(** C3, as the code has it.  [to_model_from_request] passes the empty owner
    to the [create] factory, whose validation rejects a blank owner: for
    every request, well formed or not, the mapper raises a [ValueError] and
    returns no model. *)
Theorem to_model_from_request_raises (a : Ambient) (p_dto : CreateExampleRequest.t) :
  exists msg, ExampleMapper.to_model_from_request a p_dto = Raise (ValueError msg).
Proof.
  unfold ExampleMapper.to_model_from_request, ExampleModel.create, result_bind.
  match goal with
  | |- context [ExampleModel.validate ?x] =>
      destruct (ExampleModel.validate x) as [[]|e] eqn:E
  end.
  - apply validate_ok_iff in E. destruct E as (_ & _ & _ & Hown).
    simpl in Hown. discriminate.
  - apply validate_raises_value_error in E as [msg ->]. eauto.
Qed.

(** For a request that passes the edge validation, with the non-empty
    identity a UUID is, the error is the missing owner. *)
Lemma to_model_from_request_well_formed (a : Ambient)
    (p_dto : CreateExampleRequest.t) :
  CreateExampleRequest.validate p_dto = Ok tt ->
  Py.not_ (uuid4 a) = false ->
  ExampleMapper.to_model_from_request a p_dto
  = Raise (ValueError "Example must have an owner").
Proof.
  unfold CreateExampleRequest.validate, ExampleMapper.to_model_from_request,
    ExampleModel.create, ExampleModel.validate, ExampleModel.base_validate,
    result_bind.
  simpl. intros Hdto ->.
  destruct (ExampleModel.blank (CreateExampleRequest.name p_dto));
    [discriminate |].
  destruct (100 <? Py.len (CreateExampleRequest.name p_dto));
    [discriminate | reflexivity].
Qed.

Example widget_request_raises :
  CreateExampleRequest.validate widget_create = Ok tt /\
  ExampleMapper.to_model_from_request ambient0 widget_create
  = Raise (ValueError "Example must have an owner").
Proof. split; reflexivity. Qed.




(** C8.  Mapping a write projection to a model and back keeps the identity,
    the name, the description, the owner, the active flag and both
    timestamps; the version is the one field not carried over. *)
Theorem write_entity_round_trip (a a' : Ambient) (e : ExampleWriteEntity.t) :
  let e' :=
    ExampleMapper.to_write_entity a'
      (ExampleMapper.to_model_from_write_entity a e) in
  ExampleWriteEntity.id e' = ExampleWriteEntity.id e /\
  ExampleWriteEntity.name e' = ExampleWriteEntity.name e /\
  ExampleWriteEntity.description e' = ExampleWriteEntity.description e /\
  ExampleWriteEntity.owner_id e' = ExampleWriteEntity.owner_id e /\
  ExampleWriteEntity.is_active e' = ExampleWriteEntity.is_active e /\
  ExampleWriteEntity.created_at e' = ExampleWriteEntity.created_at e /\
  ExampleWriteEntity.updated_at e' = ExampleWriteEntity.updated_at e.
Proof. simpl. repeat split. Qed.

(** The round trip resets the version: a stored version 5 comes back as 0. *)
Example round_trip_resets_version :
  ExampleWriteEntity.version
    (ExampleMapper.to_write_entity ambient0
       (ExampleMapper.to_model_from_write_entity ambient0
          (ExampleWriteEntity.mk "ex-1" 10 20 5 "Widget" "first" "user-123" true)))
  = 0.
Proof. reflexivity. Qed.

(** ** The command repository *)

Section CommandRepositoryFacts.

Import ExampleCommandRepository.

Implicit Types store : gmap string ExampleWriteEntity.t.

Lemma to_write_entity_id a (m : ExampleModel.t) :
  ExampleWriteEntity.id (ExampleMapper.to_write_entity a m) = ExampleModel._id m.
Proof. reflexivity. Qed.

Lemma to_write_entity_version a (m : ExampleModel.t) :
  ExampleWriteEntity.version (ExampleMapper.to_write_entity a m) = 0.
Proof. reflexivity. Qed.

(** A call that does not write [p_id] leaves its entry alone. *)
Lemma run_call_other (c : call) store (p_id : string) :
  written c <> Some p_id -> run_call c store !! p_id = store !! p_id.
Proof.
  destruct c as [a m | a m | k | k | a k]; simpl; intros Hw.
  - rewrite lookup_insert_ne; [done | congruence].
  - unfold update_async. rewrite to_write_entity_id.
    destruct (store !! ExampleModel._id m); simpl; [| done].
    rewrite lookup_insert_ne; [done | congruence].
  - unfold delete_async. destruct (store !! k); simpl; [| done].
    rewrite lookup_delete_ne; [done | congruence].
  - done.
  - unfold find_by_id_for_command_async. destruct (store !! k); done.
Qed.

Lemma run_calls_other (cs : list call) store (p_id : string) :
  Forall (fun c => written c <> Some p_id) cs ->
  run_calls cs store !! p_id = store !! p_id.
Proof.
  unfold run_calls. revert store.
  induction cs as [| c cs IH]; intros store Hcs; [done |].
  inversion Hcs; subst. simpl. rewrite IH by assumption.
  by apply run_call_other.
Qed.

(** Every entity the repository has written carries version 0. *)
Lemma run_call_versions (c : call) store :
  map_Forall (fun _ e => ExampleWriteEntity.version e = 0) store ->
  map_Forall (fun _ e => ExampleWriteEntity.version e = 0) (run_call c store).
Proof.
  intros Hs. destruct c as [a m | a m | k | k | a k]; simpl.
  - apply map_Forall_insert_2; [reflexivity | done].
  - unfold update_async. rewrite to_write_entity_id.
    destruct (store !! ExampleModel._id m); simpl; [| done].
    apply map_Forall_insert_2; [reflexivity | done].
  - unfold delete_async. destruct (store !! k); simpl; [| done].
    by apply map_Forall_delete.
  - done.
  - unfold find_by_id_for_command_async. destruct (store !! k); done.
Qed.

Lemma run_calls_versions (cs : list call) store :
  map_Forall (fun _ e => ExampleWriteEntity.version e = 0) store ->
  map_Forall (fun _ e => ExampleWriteEntity.version e = 0) (run_calls cs store).
Proof.
  unfold run_calls. revert store.
  induction cs as [| c cs IH]; intros store Hs; [done |].
  simpl. apply IH. by apply run_call_versions.
Qed.

End CommandRepositoryFacts.

(** C5, as claimed, fails: updating the stored example leaves its version
    at 0, which is not greater than the version stored before. *)
Lemma update_does_not_increase_version :
  exists e e',
    widget_store !! "ex-1" = Some e /\
    fst (ExampleCommandRepository.update_async ambient0
           (ExampleModel.set_name "Gadget" widget_model) widget_store) = Ok tt /\
    snd (ExampleCommandRepository.update_async ambient0
           (ExampleModel.set_name "Gadget" widget_model) widget_store) !! "ex-1"
      = Some e' /\
    ~ ExampleWriteEntity.version e < ExampleWriteEntity.version e'.
Proof.
  eexists _, _. split; [| split; [| split]].
  - vm_compute. reflexivity.
  - vm_compute. reflexivity.
  - vm_compute. reflexivity.
  - vm_compute. discriminate.
Qed.

(** C5, amended.  The version counter is never incremented.  In a store
    built by calls of the command repository, an update that is persisted
    replaces the entity by one with the same version as before, and that
    version is 0. *)
Theorem update_keeps_version_zero
    (cs : list ExampleCommandRepository.call) (a : Ambient)
    (p_model : ExampleModel.t) (store' : gmap string ExampleWriteEntity.t) :
  ExampleCommandRepository.update_async a p_model
    (ExampleCommandRepository.run_calls cs ∅) = (Ok tt, store') ->
  exists e e',
    ExampleCommandRepository.run_calls cs ∅ !! ExampleModel._id p_model = Some e /\
    store' !! ExampleModel._id p_model = Some e' /\
    ExampleWriteEntity.version e' = ExampleWriteEntity.version e /\
    ExampleWriteEntity.version e' = 0.
Proof.
  pose proof (run_calls_versions cs ∅ (map_Forall_empty _)) as Hinv.
  unfold ExampleCommandRepository.update_async.
  rewrite to_write_entity_id.
  destruct (ExampleCommandRepository.run_calls cs ∅ !! ExampleModel._id p_model)
    as [e |] eqn:He; [| discriminate].
  intros [= <-].
  exists e, (ExampleMapper.to_write_entity a p_model).
  split; [reflexivity |]. split; [apply lookup_insert_eq |].
  rewrite (Hinv _ _ He). split; reflexivity.
Qed.

Lemma update_keeps_version_zero_witness :
  exists e e',
    ExampleCommandRepository.run_calls
      [ExampleCommandRepository.Save ambient0 widget_model] ∅ !! "ex-1" = Some e /\
    snd (ExampleCommandRepository.update_async ambient0
           (ExampleModel.set_name "Gadget" widget_model)
           (ExampleCommandRepository.run_calls
              [ExampleCommandRepository.Save ambient0 widget_model] ∅)) !! "ex-1"
      = Some e' /\
    ExampleWriteEntity.version e' = ExampleWriteEntity.version e /\
    ExampleWriteEntity.version e' = 0.
Proof.
  apply (update_keeps_version_zero
           [ExampleCommandRepository.Save ambient0 widget_model] ambient0
           (ExampleModel.set_name "Gadget" widget_model)).
  vm_compute. reflexivity.
Defined.

(** C7, as claimed, fails: what the repository raises for an absent
    identity is a plain [ValueError], not the typed not-found error. *)
Lemma absent_identity_raises_untyped :
  ~ typed_not_found
      (fst (ExampleCommandRepository.find_by_id_for_command_async ambient0
              "missing" ∅)).
Proof. intros (details & message & Heq). vm_compute in Heq. discriminate. Qed.

(** C7, amended.  For an identity absent from the store,
    [find_by_id_for_command_async], [update_async] and [delete_async] do not
    succeed: each raises [ValueError] with the message
    "Example <id> not found" and leaves the store as it was. *)
Theorem absent_identity_raises_value_error
    (a : Ambient) (p_model : ExampleModel.t)
    (store : gmap string ExampleWriteEntity.t) :
  store !! ExampleModel._id p_model = None ->
  let p_id := ExampleModel._id p_model in
  let not_found :=
    ValueError (ExampleCommandRepository.not_found_message p_id) in
  ExampleCommandRepository.find_by_id_for_command_async a p_id store
    = (Raise not_found, store) /\
  ExampleCommandRepository.update_async a p_model store
    = (Raise not_found, store) /\
  ExampleCommandRepository.delete_async p_id store
    = (Raise not_found, store).
Proof.
  intros Habsent. simpl.
  unfold ExampleCommandRepository.find_by_id_for_command_async,
    ExampleCommandRepository.update_async,
    ExampleCommandRepository.delete_async.
  rewrite to_write_entity_id, Habsent. auto.
Qed.

Lemma absent_identity_raises_value_error_witness :
  ExampleCommandRepository.find_by_id_for_command_async ambient0 "ex-1" ∅
    = (Raise (ValueError "Example ex-1 not found"), ∅) /\
  ExampleCommandRepository.update_async ambient0 widget_model ∅
    = (Raise (ValueError "Example ex-1 not found"), ∅) /\
  ExampleCommandRepository.delete_async "ex-1" ∅
    = (Raise (ValueError "Example ex-1 not found"), ∅).
Proof.
  apply (absent_identity_raises_value_error ambient0 widget_model ∅).
  apply lookup_empty.
Defined.




(** ** The query repository *)

Section QueryRepositoryFacts.

Context {A : Type}.
Implicit Types items : list A.

(** With bounds that are not negative, [items[lo:lo + k]] drops [lo] items
    and keeps up to [k] of the rest. *)
Lemma slice_nonneg items (lo k : Z) :
  0 <= lo -> 0 <= k ->
  Py.slice items lo (lo + k) = take (Z.to_nat k) (drop (Z.to_nat lo) items).
Proof.
  intros Hlo Hk. unfold Py.slice, Py.clamp.
  set (n := Z.of_nat (length items)).
  assert (Hn : length items = Z.to_nat n) by (subst n; lia).
  assert (Elo : (lo <? 0) = false) by (apply Z.ltb_ge; lia).
  assert (Ehi : (lo + k <? 0) = false) by (apply Z.ltb_ge; lia).
  cbv zeta. rewrite !Elo, !Ehi.
  destruct (Z.ltb_spec n lo) as [Hbig | Hsmall].
  - destruct (Z.ltb_spec n (lo + k)); [| lia].
    rewrite (drop_ge items (Z.to_nat lo)) by lia.
    rewrite (drop_ge items (Z.to_nat n)) by lia.
    by rewrite !take_nil.
  - destruct (Z.ltb_spec n (lo + k)) as [Hover | Hfit].
    + rewrite (take_ge (drop (Z.to_nat lo) items) (Z.to_nat (n - lo)))
        by (rewrite length_drop; lia).
      rewrite (take_ge (drop (Z.to_nat lo) items) (Z.to_nat k))
        by (rewrite length_drop; lia).
      reflexivity.
    + replace (lo + k - lo) with k by lia. reflexivity.
Qed.

End QueryRepositoryFacts.

(** C9.  For skip and take that are not negative, [list_by_filter_async]
    returns at most [take] entities, namely the entities of the full result,
    in the store's order, from offset [skip] on, and it returns none when
    [skip] is at least the size of the full result. *)
Theorem list_by_filter_is_page
    (store : list (string * ExampleReadEntity.t)) (p_skip p_take : Z) :
  0 <= p_skip -> 0 <= p_take ->
  let all_entities := ExampleQueryRepository.all_entities store in
  let page := ExampleQueryRepository.list_by_filter_async p_skip p_take store in
  Z.of_nat (length page) <= p_take /\
  page = take (Z.to_nat p_take) (drop (Z.to_nat p_skip) all_entities) /\
  (Z.of_nat (length all_entities) <= p_skip -> page = []).
Proof.
  intros Hskip Htake all_entities page.
  assert (Hpage : page
                  = take (Z.to_nat p_take) (drop (Z.to_nat p_skip) all_entities)).
  { subst page. unfold ExampleQueryRepository.list_by_filter_async.
    by apply slice_nonneg. }
  split; [| split].
  - rewrite Hpage, length_take. lia.
  - exact Hpage.
  - intros Hall. rewrite Hpage, drop_ge by lia. apply take_nil.
Qed.

Lemma list_by_filter_is_page_witness :
  let page :=
    ExampleQueryRepository.list_by_filter_async 1 5 three_read_entities in
  Z.of_nat (length page) <= 5 /\
  page = [read_entity "b" "B"; read_entity "c" "C"] /\
  (3 <= 1 -> page = []).
Proof.
  apply (list_by_filter_is_page three_read_entities 1 5); lia.
Defined.

(** ** The middleware stages *)

Section PipelineFacts.

Context {U : Type} `{IUnitOfWork U}.
Variable env : Environment.

Implicit Types (w : World U) (p_request : Request.t).
Implicit Types p_call_next : Request.t -> M U Response.

(** A unit-of-work call records itself and nothing else, and touches only
    the coordinator's state. *)
Lemma uow_call_spec (act : Action) (f : U -> result unit * U) w :
  uow_call act f w
  = (fst (f (unit_of_work w)), set_unit_of_work (snd (f (unit_of_work w))) w,
     [act]).
Proof. unfold uow_call. destruct (f (unit_of_work w)); reflexivity. Qed.

Lemma uow_begin_inv w w1 (r : result unit) (l : list Action) :
  uow_begin w = (r, w1, l) ->
  l = [UowBegin] /\ _subscribers w1 = _subscribers w /\
  command_store w1 = command_store w.
Proof.
  unfold uow_begin. rewrite uow_call_spec. intros [= _ <- <-]. auto.
Qed.

(** When the next stage returns a response below 400, the stage commits
    after it, on the unit of work as the next stage left it.  A commit that
    returns ends the stage, which returns the response.  A commit that
    raises an instance of [Exception] is followed by one rollback, on the
    unit of work as the commit left it, and the stage raises.  A commit
    that raises anything else propagates with no rollback. *)
Lemma commit_follows_handler p_request p_call_next w w1 w2
    (status_code : Z) (l : list Action) :
  is_mutating p_request = true ->
  uow_begin w = (Ok tt, w1, [UowBegin]) ->
  p_call_next p_request w1 = (Ok (HttpResponse status_code), w2, l) ->
  status_code < 400 ->
  let committed := commit_async (unit_of_work w2) in
  let rolled_back := rollback_async (snd committed) in
  UnitOfWorkMiddleware p_request p_call_next w
  = match fst committed with
    | Ok _ =>
        (Ok (HttpResponse status_code), set_unit_of_work (snd committed) w2,
         UowBegin :: l ++ [UowCommit])
    | Raise e =>
        if is_Exception e
        then (match fst rolled_back with
              | Ok _ => Raise e
              | Raise e' => Raise e'
              end,
              set_unit_of_work (snd rolled_back) w2,
              UowBegin :: l ++ [UowCommit; UowRollback])
        else (Raise e, set_unit_of_work (snd committed) w2,
              UowBegin :: l ++ [UowCommit])
    end.
Proof.
  intros Hmut Hbegin Hnext Hstatus committed rolled_back.
  subst committed rolled_back.
  unfold UnitOfWorkMiddleware, try_except, bind. rewrite Hmut. simpl.
  rewrite Hbegin, Hnext. simpl.
  destruct (Z.ltb_spec status_code 400) as [_ | ?]; [| lia].
  unfold uow_commit, uow_rollback. rewrite !uow_call_spec.
  destruct (fst (commit_async (unit_of_work w2))) as [[] | e]; simpl.
  - rewrite ?app_nil_r. reflexivity.
  - rewrite ?app_nil_r. destruct (is_Exception e); [| reflexivity].
    rewrite uow_call_spec. simpl.
    destruct (fst (rollback_async (snd (commit_async (unit_of_work w2)))))
      as [[] | e']; simpl; rewrite <- ?app_assoc; reflexivity.
Qed.

(** The first steps of the update and delete use cases: the load, which
    must find the entity for the use case to return, then the ownership
    check, which must pass. *)
Ltac load_and_check p_id w He :=
  unfold bind, find_by_id_for_command_async, repo_call,
    ExampleCommandRepository.find_by_id_for_command_async;
  destruct (command_store w !! p_id) as [? |] eqn:He; [| discriminate];
  simpl; unfold check_ownership;
  destruct (ExampleModel.validate_ownership _ _) as [[] | []];
  try discriminate; simpl.

(** The update use case, when it returns: the load, the write, then one
    delivery per handler subscribed to the topic, made inside the call;
    the unit of work is not touched. *)
Lemma update_example_async_trace (p_id : string) (body : UpdateExampleRequest.t)
    (p_user_id : string) w w' (l : list Action) :
  update_example_async env p_id body p_user_id w = (Ok tt, w', l) ->
  unit_of_work w' = unit_of_work w /\
  exists stored_id event,
    l = [RepoFind p_id; RepoUpdate stored_id]
        ++ map (fun h => Delivered "example.updated" h event)
               (handlers_of "example.updated" w).
Proof.
  unfold update_example_async. load_and_check p_id w He.
  unfold mapper_update_model_from_request.
  destruct (ExampleMapper.update_model_from_request _ _ _) as [[[] | e] model];
    simpl; [| discriminate].
  unfold update_async, repo_call, ExampleCommandRepository.update_async.
  rewrite to_write_entity_id. simpl.
  destruct (command_store w !! ExampleModel._id model); simpl; [| discriminate].
  intros [= <- <-]. split; [reflexivity |]. eexists _, _. reflexivity.
Qed.

(** The delete use case, when it returns. *)
Lemma delete_example_async_trace (p_id p_user_id : string) w w' (l : list Action) :
  delete_example_async env p_id p_user_id w = (Ok tt, w', l) ->
  unit_of_work w' = unit_of_work w /\
  exists event,
    l = [RepoFind p_id; RepoDelete p_id]
        ++ map (fun h => Delivered "example.deleted" h event)
               (handlers_of "example.deleted" w).
Proof.
  unfold delete_example_async. load_and_check p_id w He.
  unfold delete_async, repo_call, ExampleCommandRepository.delete_async.
  simpl. rewrite He. simpl.
  intros [= <- <-]. split; [reflexivity |]. eexists. reflexivity.
Qed.

(** A route that returns answers 204 after the trace of its use case. *)
Lemma update_example_route_ok (p_id : string) (body : UpdateExampleRequest.t) w :
  is_ok (outcome (update_example_route env p_id body w)) = true ->
  exists w' stored_id event,
    update_example_route env p_id body w
    = (Ok (HttpResponse 204), w',
       [RepoFind p_id; RepoUpdate stored_id]
       ++ map (fun h => Delivered "example.updated" h event)
              (handlers_of "example.updated" w)) /\
    unit_of_work w' = unit_of_work w.
Proof.
  unfold update_example_route, bind, lift_result, outcome.
  destruct (UpdateExampleRequest.validate body) as [[] |]; [| discriminate].
  destruct (update_example_async env p_id body get_user_id w)
    as [[[[] | e] w'] l] eqn:Hs; [| discriminate].
  intros _.
  apply update_example_async_trace in Hs as (Huow & stored_id & event & ->).
  exists w', stored_id, event. simpl. by rewrite app_nil_r.
Qed.

Lemma delete_example_route_ok (p_id : string) w :
  is_ok (outcome (delete_example_route env p_id w)) = true ->
  exists w' event,
    delete_example_route env p_id w
    = (Ok (HttpResponse 204), w',
       [RepoFind p_id; RepoDelete p_id]
       ++ map (fun h => Delivered "example.deleted" h event)
              (handlers_of "example.deleted" w)) /\
    unit_of_work w' = unit_of_work w.
Proof.
  unfold delete_example_route, bind, outcome.
  destruct (delete_example_async env p_id get_user_id w)
    as [[[[] | e] w'] l] eqn:Hs; [| discriminate].
  intros _. apply delete_example_async_trace in Hs as (Huow & event & ->).
  exists w', event. simpl. by rewrite app_nil_r.
Qed.


(** C1, amended.  Events are not queued.  For a mutating request whose
    transaction has begun and whose update or delete use case returns, the
    event is delivered to every handler subscribed to the topic inside the
    use case, after the repository write and before the stage calls commit
    on the unit of work, which the use case has not touched.  Nothing
    follows a commit that returns, and the stage returns the response 204.
    A rollback follows exactly a commit that raised an instance of
    [Exception]; it is called on the unit of work as the commit left it,
    the stage then raises, and no delivery is taken back. *)
Theorem events_delivered_before_commit p_request (p_id : string)
    (body : UpdateExampleRequest.t) w w1 :
  is_mutating p_request = true ->
  uow_begin w = (Ok tt, w1, [UowBegin]) ->
  let committed := commit_async (unit_of_work w1) in
  let rolled_back := rollback_async (snd committed) in
  let stage (before_commit : list Action) (w2 : World U) :=
    match fst committed with
    | Ok _ =>
        (Ok (HttpResponse 204), set_unit_of_work (snd committed) w2,
         before_commit ++ [UowCommit])
    | Raise e =>
        if is_Exception e
        then (match fst rolled_back with
              | Ok _ => Raise e
              | Raise e' => Raise e'
              end,
              set_unit_of_work (snd rolled_back) w2,
              before_commit ++ [UowCommit; UowRollback])
        else (Raise e, set_unit_of_work (snd committed) w2,
              before_commit ++ [UowCommit])
    end in
  (is_ok (outcome (update_example_route env p_id body w1)) = true ->
   exists stored_id event,
     UnitOfWorkMiddleware p_request
       (fun _ => update_example_route env p_id body) w
     = stage
         ([UowBegin; RepoFind p_id; RepoUpdate stored_id]
          ++ map (fun h => Delivered "example.updated" h event)
                 (handlers_of "example.updated" w))
         (world_after (update_example_route env p_id body w1))) /\
  (is_ok (outcome (delete_example_route env p_id w1)) = true ->
   exists event,
     UnitOfWorkMiddleware p_request (fun _ => delete_example_route env p_id) w
     = stage
         ([UowBegin; RepoFind p_id; RepoDelete p_id]
          ++ map (fun h => Delivered "example.deleted" h event)
                 (handlers_of "example.deleted" w))
         (world_after (delete_example_route env p_id w1))).
Proof.
  intros Hmut Hbegin committed rolled_back stage.
  destruct (uow_begin_inv _ _ _ _ Hbegin) as (_ & Hsubs & _).
  assert (Hh : forall topic, handlers_of topic w1 = handlers_of topic w)
    by (intros topic; unfold handlers_of; by rewrite Hsubs).
  split; intros Hok.
  - apply update_example_route_ok in Hok
      as (w2 & stored_id & event & Hroute & Huow).
    exists stored_id, event.
    rewrite (commit_follows_handler p_request
               (fun _ => update_example_route env p_id body)
               w w1 w2 204 _ Hmut Hbegin Hroute) by lia.
    rewrite Hroute. subst stage committed rolled_back.
    unfold world_after. cbn [fst snd]. rewrite Huow, Hh.
    destruct (fst (commit_async (unit_of_work w1))) as [[] | e];
      [| destruct (is_Exception e)];
      cbn [app]; rewrite <- ?app_assoc; reflexivity.
  - apply delete_example_route_ok in Hok as (w2 & event & Hroute & Huow).
    exists event.
    rewrite (commit_follows_handler p_request
               (fun _ => delete_example_route env p_id)
               w w1 w2 204 _ Hmut Hbegin Hroute) by lia.
    rewrite Hroute. subst stage committed rolled_back.
    unfold world_after. cbn [fst snd]. rewrite Huow, Hh.
    destruct (fst (commit_async (unit_of_work w1))) as [[] | e];
      [| destruct (is_Exception e)];
      cbn [app]; rewrite <- ?app_assoc; reflexivity.
Qed.

(** C4, as the code has it.  The ownership stage hands every request to the
    next stage, whatever its method, subject and resource: it extracts no
    identity, verifies nothing and never answers forbidden. *)
Theorem ownership_stage_calls_next p_request p_call_next :
  OwnershipMiddleware p_request p_call_next = p_call_next p_request.
Proof.
  unfold OwnershipMiddleware.
  destruct (String.eqb (Request.method p_request) "GET"); reflexivity.
Qed.

End PipelineFacts.

(** C1, as claimed, fails: in the trace of a successful update request the
    subscribed handler receives the event before the stage commits. *)
Lemma delivery_precedes_commit :
  delivered_after_commit
    (trace (UnitOfWorkMiddleware put_widget
              (fun _ => update_example_route env0 "ex-1" gadget_update)
              widget_world))
  = false.
Proof. vm_compute. reflexivity. Qed.

(** The same request under a unit of work that refuses the commit: the
    transaction is rolled back and the event has been delivered all the
    same. *)
Example rollback_keeps_delivery :
  trace (@UnitOfWorkMiddleware CoordinatorState refused_commit_uow put_widget
           (fun _ => @update_example_route CoordinatorState env0 "ex-1" gadget_update)
           widget_world)
  = [UowBegin; RepoFind "ex-1"; RepoUpdate "ex-1";
     Delivered "example.updated" 7%nat
       (ExampleUpdatedEvent "uuid-6" 1007 "" "ex-1" "Gadget");
     UowCommit; UowRollback] /\
  rollback_discards_events
    (trace (@UnitOfWorkMiddleware CoordinatorState refused_commit_uow put_widget
              (fun _ => @update_example_route CoordinatorState env0 "ex-1" gadget_update)
              widget_world))
  = false.
Proof. vm_compute. split; reflexivity. Qed.

Lemma events_delivered_before_commit_witness :
  exists stored_id event,
    UnitOfWorkMiddleware put_widget
      (fun _ => update_example_route env0 "ex-1" gadget_update)
      widget_world
    = (Ok (HttpResponse 204),
       world_after
         (update_example_route env0 "ex-1" gadget_update widget_world),
       [UowBegin; RepoFind "ex-1"; RepoUpdate stored_id]
       ++ map (fun h => Delivered "example.updated" h event)
              (handlers_of "example.updated" widget_world)
       ++ [UowCommit]).
Proof.
  destruct (events_delivered_before_commit env0 put_widget "ex-1" gadget_update
              widget_world (set_unit_of_work ACTIVE widget_world))
    as [Hupdate _]; [reflexivity | reflexivity |].
  destruct Hupdate as (stored_id & event & Hstage); [vm_compute; reflexivity |].
  exists stored_id, event. rewrite Hstage.
  cbn [fst snd commit_async coordinator_uow]. rewrite <- app_assoc.
  reflexivity.
Defined.



(** C4 at a concrete request: a delete sent by a user who does not own the
    stored example passes the ownership stage; the handler runs, answers
    204 and the example is gone. *)
Example stranger_delete_passes_ownership_stage :
  let o :=
    OwnershipMiddleware delete_by_stranger
      (fun _ => delete_example_route env0 "ex-1") widget_world in
  outcome o = Ok (HttpResponse 204) /\
  command_store (world_after o) !! "ex-1" = None.
Proof. vm_compute. split; reflexivity. Qed.

(** C7 through the whole pipeline: an update of an absent identity reaches
    the error-handling stage as an unexpected exception and is answered with
    the generic internal error, whose code maps to 500, after a rollback. *)
Example absent_identity_is_internal_error :
  let o :=
    pipeline env0 put_widget
      (fun _ => update_example_route env0 "missing" gadget_update)
      widget_world in
  outcome o
  = Ok (ErrorResponse
          (ErrorResponseDto.mk "INTERNAL_ERROR" "An unexpected error occurred"
             1001 "" "" None)) /\
  trace o = [UowBegin; RepoFind "missing"; UowRollback] /\
  _map_error_code_to_status (StrCode "INTERNAL_ERROR") = 500 /\
  _map_error_code_to_status (EnumCode NOT_FOUND) = 404.
Proof. vm_compute. repeat split; reflexivity. Qed.

(** * Further properties of the code *)

(** ** The domain model *)

(** X1.  The [create] factory returns exactly when the generated identity is
    not empty, the name is not blank and has at most 100 characters and the
    owner is not blank; the model it returns carries the generated identity
    and timestamps, the three arguments, and is active. *)
Theorem create_returns_iff (a : Ambient)
    (p_name p_description p_owner_id : string) (m : ExampleModel.t) :
  ExampleModel.create a p_name p_description p_owner_id = Ok m <->
  (Py.not_ (uuid4 a) = false /\ ExampleModel.blank p_name = false /\
   Py.len p_name <= 100 /\ ExampleModel.blank p_owner_id = false) /\
  m = ExampleModel.mk (uuid4 a) (utcnow_created a) (utcnow_updated a)
        p_name p_description p_owner_id true.
Proof.
  unfold ExampleModel.create, result_bind.
  match goal with
  | |- context [ExampleModel.validate ?x] =>
      pose proof (validate_ok_iff x) as Hv;
      destruct (ExampleModel.validate x) as [[] | e]
  end; simpl in Hv.
  - split.
    + intros [= <-]. split; [apply Hv; reflexivity | reflexivity].
    + intros [_ ->]. reflexivity.
  - split; [discriminate |].
    intros [Hc _]. apply Hv in Hc. discriminate.
Qed.

(** X2.  [update_details] is not atomic on failure.  A blank name is refused
    before anything is written, and the model stays as it was; a name that
    is not blank but longer than 100 characters is refused by the
    validation that runs after the assignments, so the call raises and the
    model already carries the new name, description and timestamp. *)
Theorem update_details_failure (now : datetime) (self : ExampleModel.t)
    (p_name p_description : string) :
  (ExampleModel.blank p_name = true ->
   ExampleModel.update_details now self p_name p_description
   = (Raise (ValueError "Name cannot be empty"), self)) /\
  (ExampleModel.blank p_name = false -> 100 < Py.len p_name ->
   exists msg,
     ExampleModel.update_details now self p_name p_description
     = (Raise (ValueError msg),
        ExampleModel.set_updated_at now
          (ExampleModel.set_description p_description
             (ExampleModel.set_name p_name self)))).
Proof.
  unfold ExampleModel.update_details. split.
  - intros ->. reflexivity.
  - intros -> Hlong.
    match goal with
    | |- context [ExampleModel.validate ?x] =>
        pose proof (validate_ok_iff x) as Hv;
        destruct (ExampleModel.validate x) as [[] | e] eqn:E
    end.
    + destruct Hv as [Hv _]. destruct (Hv eq_refl) as (_ & _ & Hlen & _).
      simpl in Hlen. lia.
    + apply validate_raises_value_error in E as [msg ->]. eauto.
Qed.

Lemma update_details_failure_witness :
  exists msg,
    ExampleModel.update_details 30 widget_model
      "0123456789012345678901234567890123456789012345678901234567890123456789012345678901234567890123456789x"
      "long"
    = (Raise (ValueError msg),
       ExampleModel.mk "ex-1" 10 30
         "0123456789012345678901234567890123456789012345678901234567890123456789012345678901234567890123456789x"
         "long" "user-123" true).
Proof.
  apply (update_details_failure 30 widget_model
           "0123456789012345678901234567890123456789012345678901234567890123456789012345678901234567890123456789x"
           "long").
  - reflexivity.
  - vm_compute. reflexivity.
Defined.

(** X3.  An update request that passed the edge validation never fails the
    domain validation of a model that was valid: [update_model_from_request]
    returns, and the model has the request's name and description, the new
    timestamp, and every other field as before. *)
Theorem validated_request_updates_model (now : datetime) (m : ExampleModel.t)
    (p_request : UpdateExampleRequest.t) :
  UpdateExampleRequest.validate p_request = Ok tt ->
  ExampleModel.validate m = Ok tt ->
  ExampleMapper.update_model_from_request now m p_request
  = (Ok tt,
     ExampleModel.mk (ExampleModel._id m) (ExampleModel._created_at m) now
       (UpdateExampleRequest.name p_request)
       (UpdateExampleRequest.description p_request)
       (ExampleModel._owner_id m) (ExampleModel._is_active m)).
Proof.
  unfold UpdateExampleRequest.validate, ExampleMapper.update_model_from_request,
    ExampleModel.update_details.
  destruct (ExampleModel.blank (UpdateExampleRequest.name p_request)) eqn:Hb;
    [discriminate |].
  destruct (Z.ltb_spec 100 (Py.len (UpdateExampleRequest.name p_request)));
    [discriminate |].
  intros _ Hm. apply validate_ok_iff in Hm as (Hid & _ & _ & Hown).
  f_equal. apply validate_ok_iff. simpl. auto.
Qed.

Lemma validated_request_updates_model_witness :
  ExampleMapper.update_model_from_request 30 widget_model gadget_update
  = (Ok tt, ExampleModel.mk "ex-1" 10 30 "Gadget" "second" "user-123" true).
Proof.
  apply (validated_request_updates_model 30 widget_model gadget_update);
    reflexivity.
Defined.

(** ** Error codes, messages and the error-handling stage *)

Section ErrorFacts.

Lemma append_assoc (a b c : string) : a +:+ (b +:+ c) = (a +:+ b) +:+ c.
Proof.
  induction a as [| x a IH]; [reflexivity |].
  change (String x (a +:+ (b +:+ c)) = String x ((a +:+ b) +:+ c)).
  by rewrite IH.
Qed.

Lemma upper_app (a b : string) :
  Py.upper (a +:+ b) = Py.upper a +:+ Py.upper b.
Proof.
  induction a as [| c a IH]; [reflexivity |].
  change (Py.upper_char c +:+ Py.upper (a +:+ b)
          = (Py.upper_char c +:+ Py.upper a) +:+ Py.upper b).
  rewrite IH. apply append_assoc.
Qed.

Lemma upper_char_idempotent (c : ascii) :
  Py.upper (Py.upper_char c) = Py.upper_char c.
Proof. destruct c as [[] [] [] [] [] [] [] []]; reflexivity. Qed.

Lemma upper_idempotent (s : string) : Py.upper (Py.upper s) = Py.upper s.
Proof.
  induction s as [| c s IH]; simpl; [reflexivity |].
  by rewrite upper_app, upper_char_idempotent, IH.
Qed.

(** Replacing a text that does not occur changes nothing. *)
Lemma replace_from_absent (old new s : string) :
  Py.contains old s = false -> Py.replace_from old new s 0 = s.
Proof.
  induction s as [| c s IH]; simpl; [reflexivity |].
  intros Hc. apply orb_false_iff in Hc as [Hp Hs].
  destruct old as [| o old']; [discriminate |].
  simpl in Hp |- *. rewrite Hp. f_equal. apply IH.
  exact Hs.
Qed.

Lemma replace_absent (old new s : string) :
  Py.contains old s = false -> Py.replace old new s = s.
Proof.
  unfold Py.replace. destruct old; [reflexivity |].
  apply replace_from_absent.
Qed.

End ErrorFacts.

(** X4.  The status of an error code is one of 400, 401, 403, 404, 409 and
    500, whatever the code, enum member or string. *)
Theorem map_error_code_to_status_range (p_code : error_code_arg) :
  In (_map_error_code_to_status p_code) [400; 401; 403; 404; 409; 500].
Proof.
  unfold _map_error_code_to_status.
  repeat match goal with
         | |- context [if ?b then _ else _] => destruct b
         end; simpl; auto 10.
Qed.

(** X5.  The status does not depend on the case of the code: a code and its
    upper-case form have the same status. *)
Theorem map_error_code_to_status_ignores_case (s : string) :
  _map_error_code_to_status (StrCode (Py.upper s))
  = _map_error_code_to_status (StrCode s).
Proof.
  unfold _map_error_code_to_status. by rewrite upper_idempotent.
Qed.

(** X6.  Every code of [ExampleErrorCode] has a client-error status:
    not found 404, validation failed 400, conflict and already exists 409,
    unauthorized 401.  None of them is answered with 403 or 500. *)
Theorem example_error_code_status (c : ExampleErrorCode) :
  _map_error_code_to_status (EnumCode c)
  = match c with
    | NOT_FOUND => 404
    | VALIDATION_FAILED => 400
    | CONFLICT | ALREADY_EXISTS => 409
    | UNAUTHORIZED => 401
    end.
Proof. destruct c; vm_compute; reflexivity. Qed.

(** The upper-case form may be longer than the code: the sharp s becomes
    "SS", so a code ending in it is upper-cased to ALREADY_EXISTSS and has
    the status of an existing resource. *)
Example sharp_s_code_status :
  Py.upper ("already_exist" +:+ String (ascii_of_nat 223) "")
  = "ALREADY_EXISTSS" /\
  _map_error_code_to_status
    (StrCode ("already_exist" +:+ String (ascii_of_nat 223) "")) = 409.
Proof. vm_compute. split; reflexivity. Qed.

(** X7.  The message of a not-found or unauthorized service exception
    raised with the identity as its only detail is the template with that
    identity in place of the placeholder, whatever the identity is. *)
Theorem service_exception_message (p_id : string) :
  exn_str (new_ExampleServiceException NOT_FOUND [("id", p_id)])
  = "Example '" +:+ p_id +:+ "' not found" /\
  exn_str (new_ExampleServiceException UNAUTHORIZED [("id", p_id)])
  = "You are not authorized to access example '" +:+ p_id +:+ "'".
Proof. split; reflexivity. Qed.

(** X8.  Formatting a message does not fail on details that match no
    placeholder: when no detail's placeholder occurs in the template of the
    code, the message is the template as it is. *)
Theorem format_message_without_placeholder (p_code : ExampleErrorCode)
    (p_message_templates : ExampleErrorCode -> option string)
    (p_details : list (string * string)) (template : string) :
  p_message_templates p_code = Some template ->
  Forall (fun kv => Py.contains ("{" +:+ fst kv +:+ "}") template = false)
         p_details ->
  _format_message p_code p_message_templates p_details = template.
Proof.
  intros Ht Habsent. unfold _format_message. rewrite Ht.
  destruct p_details as [| kv rest]; [reflexivity |].
  revert Habsent. generalize (kv :: rest). clear kv rest.
  intros details. induction 1 as [| kv details Hkv _ IH]; cbn [foldl];
    [reflexivity |].
  rewrite replace_absent by exact Hkv. exact IH.
Qed.

Lemma format_message_without_placeholder_witness :
  _format_message CONFLICT _MESSAGE_TEMPLATES [("id", "ex-1")]
  = "Example '{name}' already exists".
Proof.
  apply (format_message_without_placeholder CONFLICT _MESSAGE_TEMPLATES
           [("id", "ex-1")] "Example '{name}' already exists").
  - reflexivity.
  - repeat constructor.
Defined.

Section StageFacts.

Context {U : Type} `{IUnitOfWork U}.
Variable env : Environment.

Implicit Types (w : World U) (p_request : Request.t).
Implicit Types p_call_next : Request.t -> M U Response.

(** X9.  The error-handling stage catches the instances of [Exception]
    and nothing else.  When the next stage returns, the stage returns the
    same response, world and actions.  When the next stage raises an
    instance of [Exception], the stage does not raise: it returns an error
    response.  When the next stage raises anything else, such as
    [CancelledError], the stage propagates it, unchanged and with nothing
    added. *)
Theorem error_handling_catches_exceptions p_request p_call_next w :
  match outcome (p_call_next p_request w) with
  | Ok _ =>
      ErrorHandlingMiddleware env p_request p_call_next w
      = p_call_next p_request w
  | Raise e =>
      if is_Exception e
      then exists dto,
             outcome (ErrorHandlingMiddleware env p_request p_call_next w)
             = Ok (ErrorResponse dto)
      else ErrorHandlingMiddleware env p_request p_call_next w
           = p_call_next p_request w
  end.
Proof.
  unfold ErrorHandlingMiddleware, try_except, outcome.
  destruct (p_call_next p_request w) as [[[response | e] w1] l]; simpl;
    [reflexivity |].
  destruct e; simpl; eauto.
Qed.

(** X10.  What the error-handling stage answers when the next stage raises
    an instance of [Exception].  A service exception gives its code's
    value, its formatted message and its details.  Any other exception
    gives the code INTERNAL_ERROR, the fixed message "An unexpected error
    occurred" and no details: nothing of the exception reaches the
    response.  In both cases the path and request id are empty, the
    timestamp is the one clock reading the stage makes, the actions are
    those of the next stage and the world is as the next stage left it,
    the clock apart. *)
Theorem error_handling_normalizes p_request p_call_next w w1
    (e : exn) (l : list Action) :
  p_call_next p_request w = (Raise e, w1, l) ->
  is_Exception e = true ->
  ErrorHandlingMiddleware env p_request p_call_next w
  = (Ok (ErrorResponse
           match e with
           | ExampleServiceException error_code details message =>
               ErrorResponseDto.mk (error_code_value error_code) message
                 (env_utcnow env (reads w1)) "" "" (Some details)
           | _ =>
               ErrorResponseDto.mk "INTERNAL_ERROR" "An unexpected error occurred"
                 (env_utcnow env (reads w1)) "" "" None
           end),
     set_reads (S (reads w1)) w1, l).
Proof.
  intros Hnext He.
  unfold ErrorHandlingMiddleware, try_except.
  rewrite Hnext, He. destruct e; simpl; rewrite ?app_nil_r; reflexivity.
Qed.

(** X11.  For a mutating request whose transaction has begun, a response
    with status 400 or more is rolled back and never committed: after the
    handler's actions the stage calls rollback on the unit of work as the
    handler left it.  When that rollback returns, the stage returns the
    handler's response.  When it raises an instance of [Exception], the
    stage calls rollback a second time, on the unit of work as the first
    call left it, and then raises: the first rollback's exception, or the
    second's if the second raised too.  When it raises anything else, that
    propagates and there is no second call. *)
Theorem error_status_rolls_back p_request p_call_next w w1 w2
    (status_code : Z) (l : list Action) :
  is_mutating p_request = true ->
  uow_begin w = (Ok tt, w1, [UowBegin]) ->
  p_call_next p_request w1 = (Ok (HttpResponse status_code), w2, l) ->
  400 <= status_code ->
  let first := rollback_async (unit_of_work w2) in
  let second := rollback_async (snd first) in
  UnitOfWorkMiddleware p_request p_call_next w
  = match fst first with
    | Ok _ =>
        (Ok (HttpResponse status_code), set_unit_of_work (snd first) w2,
         UowBegin :: l ++ [UowRollback])
    | Raise e1 =>
        if is_Exception e1
        then (match fst second with
              | Ok _ => Raise e1
              | Raise e2 => Raise e2
              end,
              set_unit_of_work (snd second) w2,
              UowBegin :: l ++ [UowRollback; UowRollback])
        else (Raise e1, set_unit_of_work (snd first) w2,
              UowBegin :: l ++ [UowRollback])
    end.
Proof.
  intros Hmut Hbegin Hnext Hstatus first second. subst first second.
  unfold UnitOfWorkMiddleware, try_except, bind. rewrite Hmut. simpl.
  rewrite Hbegin, Hnext. simpl.
  destruct (Z.ltb_spec status_code 400) as [? | _]; [lia |].
  unfold uow_rollback. rewrite uow_call_spec.
  destruct (fst (rollback_async (unit_of_work w2))) as [[] | e1]; simpl.
  - rewrite ?app_nil_r. reflexivity.
  - rewrite ?app_nil_r. destruct (is_Exception e1); [| reflexivity].
    rewrite uow_call_spec. simpl.
    destruct (fst (rollback_async (snd (rollback_async (unit_of_work w2)))))
      as [[] | e2]; simpl; rewrite <- ?app_assoc; reflexivity.
Qed.

(** X12.  When begin-transaction itself raises, the handler is not run,
    whatever the next stage is, and the stores are untouched.  If what
    begin raised is an instance of [Exception], the stage calls rollback
    once, on the unit of work as begin left it, and then raises: begin's
    exception, or the rollback's own if the rollback raised.  If it is
    not, it propagates and rollback is not called. *)
Theorem failed_begin_skips_handler p_request p_call_next w (e : exn) :
  is_mutating p_request = true ->
  fst (begin_transaction_async (unit_of_work w)) = Raise e ->
  let begun := snd (begin_transaction_async (unit_of_work w)) in
  UnitOfWorkMiddleware p_request p_call_next w
  = if is_Exception e
    then (match fst (rollback_async begun) with
          | Ok _ => Raise e
          | Raise e' => Raise e'
          end,
          set_unit_of_work (snd (rollback_async begun)) w,
          [UowBegin; UowRollback])
    else (Raise e, set_unit_of_work begun w, [UowBegin]).
Proof.
  intros Hmut Hbegin begun. subst begun.
  unfold UnitOfWorkMiddleware, try_except, bind. rewrite Hmut. simpl.
  unfold uow_begin, uow_rollback. rewrite !uow_call_spec, Hbegin. simpl.
  destruct (is_Exception e); [| reflexivity].
  rewrite uow_call_spec. simpl.
  destruct (fst (rollback_async _)) as [[] | e']; reflexivity.
Qed.

(** X13.  For a mutating request whose transaction has begun, a response
    with status below 400 whose commit returns is committed exactly once
    after the handler's actions and returned; no rollback is called. *)
Theorem success_commits p_request p_call_next w w1 w2
    (status_code : Z) (l : list Action) :
  is_mutating p_request = true ->
  uow_begin w = (Ok tt, w1, [UowBegin]) ->
  p_call_next p_request w1 = (Ok (HttpResponse status_code), w2, l) ->
  status_code < 400 ->
  fst (commit_async (unit_of_work w2)) = Ok tt ->
  UnitOfWorkMiddleware p_request p_call_next w
  = (Ok (HttpResponse status_code),
     set_unit_of_work (snd (commit_async (unit_of_work w2))) w2,
     UowBegin :: l ++ [UowCommit]).
Proof.
  intros Hmut Hbegin Hnext Hstatus Hcommit.
  unfold UnitOfWorkMiddleware, try_except, bind. rewrite Hmut. simpl.
  rewrite Hbegin, Hnext. simpl.
  destruct (Z.ltb_spec status_code 400) as [_ | ?]; [| lia].
  unfold uow_commit. rewrite uow_call_spec, Hcommit. simpl.
  by rewrite ?app_nil_r.
Qed.

End StageFacts.

Lemma error_handling_normalizes_witness :
  ErrorHandlingMiddleware env0 put_widget
    (fun _ => update_example_route env0 "missing" gadget_update)
    widget_world
  = (Ok (ErrorResponse
           (ErrorResponseDto.mk "INTERNAL_ERROR" "An unexpected error occurred"
              1000 "" "" None)),
     set_reads 1 widget_world, [RepoFind "missing"]).
Proof.
  apply (error_handling_normalizes env0 put_widget
           (fun _ => update_example_route env0 "missing" gadget_update)
           widget_world widget_world
           (ValueError "Example missing not found") [RepoFind "missing"]).
  - vm_compute. reflexivity.
  - reflexivity.
Defined.

Lemma error_status_rolls_back_witness :
  UnitOfWorkMiddleware put_widget (fun _ => ret (HttpResponse 404))
    widget_world
  = (Ok (HttpResponse 404), widget_world, [UowBegin; UowRollback]).
Proof.
  refine (error_status_rolls_back put_widget (fun _ => ret (HttpResponse 404))
            widget_world (set_unit_of_work ACTIVE widget_world)
            (set_unit_of_work ACTIVE widget_world) 404 [] _ _ _ _);
    [reflexivity | reflexivity | reflexivity | lia].
Defined.

Lemma failed_begin_skips_handler_witness :
  UnitOfWorkMiddleware put_widget
    (fun _ => update_example_route env0 "ex-1" gadget_update)
    (set_unit_of_work ACTIVE widget_world)
  = (Raise (OtherException "transaction already active"),
     widget_world, [UowBegin; UowRollback]).
Proof.
  refine (failed_begin_skips_handler put_widget
            (fun _ => update_example_route env0 "ex-1" gadget_update)
            (set_unit_of_work ACTIVE widget_world)
            (OtherException "transaction already active") _ _);
    reflexivity.
Defined.

Lemma success_commits_witness :
  UnitOfWorkMiddleware put_widget (fun _ => ret (HttpResponse 204)) widget_world
  = (Ok (HttpResponse 204), widget_world, [UowBegin; UowCommit]).
Proof.
  refine (success_commits put_widget (fun _ => ret (HttpResponse 204))
            widget_world (set_unit_of_work ACTIVE widget_world)
            (set_unit_of_work ACTIVE widget_world) 204 [] _ _ _ _ _);
    [reflexivity | reflexivity | reflexivity | lia | reflexivity].
Defined.

(** ** The event bus *)

(** X14.  After [subscribe_async] of a handler to a topic, [publish_async]
    on that topic calls the handlers subscribed before, in their order,
    and then the new one, each once with the published event; the handlers
    of every other topic are as before, and subscribing records no action
    and never raises. *)
Theorem subscribe_then_publish {U : Type} (p_topic : string)
    (p_handler : Handler) (p_event : DomainEvent) (w : World U) :
  let o := subscribe_async p_topic p_handler w in
  outcome o = Ok tt /\ trace o = [] /\
  publish_async p_event p_topic (world_after o)
  = (Ok tt, world_after o,
     map (fun h => Delivered p_topic h p_event)
         (handlers_of p_topic w ++ [p_handler])) /\
  (forall other, other <> p_topic ->
     handlers_of other (world_after o) = handlers_of other w).
Proof.
  simpl. repeat split.
  - unfold publish_async, handlers_of at 1, world_after; simpl.
    by rewrite lookup_insert_eq.
  - intros other Hother. unfold handlers_of, world_after; simpl.
    by rewrite lookup_insert_ne.
Qed.

(** ** The command repository *)

(** X15.  The store keeps every entity under its own identity: in a store
    built by calls of the command repository, the key of an entry is the
    [id] of the entity stored there. *)
Theorem store_keys_are_ids (cs : list ExampleCommandRepository.call) :
  map_Forall (fun key entity => ExampleWriteEntity.id entity = key)
             (ExampleCommandRepository.run_calls cs ∅).
Proof.
  unfold ExampleCommandRepository.run_calls.
  assert (Hgen : forall store : gmap string ExampleWriteEntity.t,
             map_Forall (fun key entity => ExampleWriteEntity.id entity = key) store ->
             map_Forall (fun key entity => ExampleWriteEntity.id entity = key)
               (foldl (fun s c => ExampleCommandRepository.run_call c s) store cs)).
  { induction cs as [| c cs IH]; intros store Hs; [exact Hs |].
    simpl. apply IH.
    destruct c as [a m | a m | k | k | a k]; simpl.
    - apply map_Forall_insert_2; [reflexivity | exact Hs].
    - unfold ExampleCommandRepository.update_async.
      rewrite to_write_entity_id.
      destruct (store !! ExampleModel._id m); simpl; [| exact Hs].
      apply map_Forall_insert_2; [reflexivity | exact Hs].
    - unfold ExampleCommandRepository.delete_async.
      destruct (store !! k); simpl; [| exact Hs].
      by apply map_Forall_delete.
    - exact Hs.
    - unfold ExampleCommandRepository.find_by_id_for_command_async.
      destruct (store !! k); exact Hs. }
  apply Hgen, map_Forall_empty.
Qed.

(** X16.  Deleting a stored identity returns, removes that entry and no
    other: afterwards [exists_async] is false for it,
    [find_by_id_for_command_async] raises the not-found [ValueError], and
    every other identity is stored as before. *)
Theorem delete_then_absent (a : Ambient) (p_id : string)
    (store : gmap string ExampleWriteEntity.t) :
  is_Some (store !! p_id) ->
  let store' := snd (ExampleCommandRepository.delete_async p_id store) in
  fst (ExampleCommandRepository.delete_async p_id store) = Ok tt /\
  fst (ExampleCommandRepository.exists_async p_id store') = Ok false /\
  fst (ExampleCommandRepository.find_by_id_for_command_async a p_id store')
  = Raise (ValueError (ExampleCommandRepository.not_found_message p_id)) /\
  (forall other, other <> p_id -> store' !! other = store !! other).
Proof.
  intros [entity He]. unfold ExampleCommandRepository.delete_async.
  rewrite He. simpl.
  unfold ExampleCommandRepository.exists_async,
    ExampleCommandRepository.find_by_id_for_command_async.
  rewrite lookup_delete_eq. simpl. repeat split.
  intros other Hother. by rewrite lookup_delete_ne.
Qed.

Lemma delete_then_absent_witness :
  let store' := snd (ExampleCommandRepository.delete_async "ex-1" widget_store) in
  fst (ExampleCommandRepository.delete_async "ex-1" widget_store) = Ok tt /\
  fst (ExampleCommandRepository.exists_async "ex-1" store') = Ok false /\
  fst (ExampleCommandRepository.find_by_id_for_command_async ambient0 "ex-1" store')
  = Raise (ValueError "Example ex-1 not found") /\
  (forall other, other <> "ex-1" -> store' !! other = widget_store !! other).
Proof.
  apply (delete_then_absent ambient0 "ex-1" widget_store).
  exists widget_entity. reflexivity.
Defined.

(** X17.  Updating a stored identity returns and replaces the entity by the
    model's projection: afterwards [find_by_id_for_command_async] returns
    the very model that was written, every other identity is stored as
    before, and the store has as many entries as before. *)
Theorem update_then_find (a a' : Ambient) (p_model : ExampleModel.t)
    (store : gmap string ExampleWriteEntity.t) :
  is_Some (store !! ExampleModel._id p_model) ->
  let store' := snd (ExampleCommandRepository.update_async a p_model store) in
  fst (ExampleCommandRepository.update_async a p_model store) = Ok tt /\
  fst (ExampleCommandRepository.find_by_id_for_command_async a'
         (ExampleModel._id p_model) store') = Ok p_model /\
  (forall other, other <> ExampleModel._id p_model ->
     store' !! other = store !! other) /\
  size store' = size store.
Proof.
  intros [entity He]. unfold ExampleCommandRepository.update_async.
  rewrite to_write_entity_id, He. simpl.
  unfold ExampleCommandRepository.find_by_id_for_command_async.
  rewrite lookup_insert_eq. simpl. repeat split.
  - f_equal. apply hydrate_to_write_entity.
  - intros other Hother. by rewrite lookup_insert_ne.
  - apply map_size_insert_Some. eauto.
Qed.

Lemma update_then_find_witness :
  let m := ExampleModel.set_name "Gadget" widget_model in
  let store' := snd (ExampleCommandRepository.update_async ambient0 m widget_store) in
  fst (ExampleCommandRepository.update_async ambient0 m widget_store) = Ok tt /\
  fst (ExampleCommandRepository.find_by_id_for_command_async ambient0 "ex-1" store')
  = Ok m /\
  (forall other, other <> "ex-1" -> store' !! other = widget_store !! other) /\
  size store' = size widget_store.
Proof.
  apply (update_then_find ambient0 ambient0
           (ExampleModel.set_name "Gadget" widget_model) widget_store).
  exists widget_entity. reflexivity.
Defined.

(** X18.  [save_async] never raises and does not detect a conflict: it
    returns the model's identity, and when that identity is already stored
    the entity is replaced without error and the store keeps its size,
    otherwise the store gains one entry. *)
Theorem save_is_upsert (a : Ambient) (p_model : ExampleModel.t)
    (store : gmap string ExampleWriteEntity.t) :
  let o := ExampleCommandRepository.save_async a p_model store in
  fst o = Ok (ExampleModel._id p_model) /\
  snd o !! ExampleModel._id p_model = Some (ExampleMapper.to_write_entity a p_model) /\
  size (snd o)
  = match store !! ExampleModel._id p_model with
    | Some _ => size store
    | None => S (size store)
    end.
Proof.
  simpl. split; [reflexivity |]. split; [apply lookup_insert_eq |].
  rewrite map_size_insert. by destruct (store !! ExampleModel._id p_model).
Qed.

(** ** The query repository *)

(** X19.  Consecutive pages concatenate: for a skip and two page sizes that
    are not negative, the page of size [a] at [skip] followed by the page
    of size [b] at [skip + a] is the page of size [a + b] at [skip]. *)
Theorem pages_concatenate (store : list (string * ExampleReadEntity.t))
    (p_skip a b : Z) :
  0 <= p_skip -> 0 <= a -> 0 <= b ->
  ExampleQueryRepository.list_by_filter_async p_skip a store
  ++ ExampleQueryRepository.list_by_filter_async (p_skip + a) b store
  = ExampleQueryRepository.list_by_filter_async p_skip (a + b) store.
Proof.
  intros Hskip Ha Hb. unfold ExampleQueryRepository.list_by_filter_async.
  rewrite !slice_nonneg by lia.
  rewrite !Z2Nat.inj_add by lia.
  rewrite <- drop_drop. apply take_take_drop.
Qed.

Lemma pages_concatenate_witness :
  ExampleQueryRepository.list_by_filter_async 0 1 three_read_entities
  ++ ExampleQueryRepository.list_by_filter_async (0 + 1) 2 three_read_entities
  = ExampleQueryRepository.list_by_filter_async 0 (1 + 2) three_read_entities.
Proof.
  apply (pages_concatenate three_read_entities 0 1 2); lia.
Defined.

(** X20.  A negative skip is not refused: it counts from the end of the
    full result, as a Python slice does, and the result is not monotone in
    take.  With [n] entities and a skip between [-n] and [-1]: a take below
    [-skip] returns that many entities from offset [n + skip]; a take from
    [-skip] to [n] returns nothing; a take of at least [n - skip] returns
    the last [-skip] entities. *)
Theorem negative_skip_counts_from_end
    (store : list (string * ExampleReadEntity.t)) (p_skip p_take : Z) :
  let all_entities := ExampleQueryRepository.all_entities store in
  let n := Z.of_nat (length all_entities) in
  - n <= p_skip < 0 ->
  (0 <= p_take < - p_skip ->
   ExampleQueryRepository.list_by_filter_async p_skip p_take store
   = take (Z.to_nat p_take) (drop (Z.to_nat (n + p_skip)) all_entities)) /\
  (- p_skip <= p_take <= n ->
   ExampleQueryRepository.list_by_filter_async p_skip p_take store = []) /\
  (n - p_skip <= p_take ->
   ExampleQueryRepository.list_by_filter_async p_skip p_take store
   = drop (Z.to_nat (n + p_skip)) all_entities).
Proof.
  intros all_entities n Hskip.
  unfold ExampleQueryRepository.list_by_filter_async, Py.slice, Py.clamp.
  fold all_entities. fold n. cbv zeta.
  assert (Hn : Z.of_nat (length all_entities) = n) by reflexivity.
  clearbody n.
  assert (Elo : (p_skip <? 0) = true) by (apply Z.ltb_lt; lia).
  assert (Elo' : (p_skip + n <? 0) = false) by (apply Z.ltb_ge; lia).
  assert (Elo'' : (n <? p_skip + n) = false) by (apply Z.ltb_ge; lia).
  repeat first [rewrite Elo | rewrite Elo' | rewrite Elo'' | progress cbv iota].
  replace (p_skip + n) with (n + p_skip) by lia.
  split; [| split]; intros Htake.
  - assert (E0 : (p_skip + p_take <? 0) = true) by (apply Z.ltb_lt; lia).
    assert (E1 : (p_skip + p_take + n <? 0) = false) by (apply Z.ltb_ge; lia).
    assert (E2 : (n <? p_skip + p_take + n) = false) by (apply Z.ltb_ge; lia).
    repeat first [rewrite E0 | rewrite E1 | rewrite E2 | progress cbv iota].
    replace (p_skip + p_take + n - (n + p_skip)) with p_take by lia.
    reflexivity.
  - assert (E0 : (p_skip + p_take <? 0) = false) by (apply Z.ltb_ge; lia).
    assert (E1 : (n <? p_skip + p_take) = false) by (apply Z.ltb_ge; lia).
    repeat first [rewrite E0 | rewrite E1 | progress cbv iota].
    assert (Hz : Z.to_nat (p_skip + p_take - (n + p_skip)) = 0%nat) by lia.
    rewrite Hz. reflexivity.
  - assert (E0 : (p_skip + p_take <? 0) = false) by (apply Z.ltb_ge; lia).
    repeat first [rewrite E0 | progress cbv iota].
    destruct (Z.ltb_spec n (p_skip + p_take));
      apply take_ge; rewrite length_drop; lia.
Qed.

Lemma negative_skip_counts_from_end_witness :
  ExampleQueryRepository.list_by_filter_async (-2) 1 three_read_entities
  = [read_entity "b" "B"] /\
  ExampleQueryRepository.list_by_filter_async (-2) 3 three_read_entities = [] /\
  ExampleQueryRepository.list_by_filter_async (-2) 5 three_read_entities
  = [read_entity "b" "B"; read_entity "c" "C"].
Proof.
  destruct (negative_skip_counts_from_end three_read_entities (-2) 1)
    as (H1 & _ & _); [simpl; lia |].
  destruct (negative_skip_counts_from_end three_read_entities (-2) 3)
    as (_ & H2 & _); [simpl; lia |].
  destruct (negative_skip_counts_from_end three_read_entities (-2) 5)
    as (_ & _ & H3); [simpl; lia |].
  split; [| split].
  - apply H1. lia.
  - apply H2. simpl. lia.
  - apply H3. simpl. lia.
Defined.

(** ** The service use cases *)

Section ServiceFacts.

Context {U : Type}.
Variable env : Environment.

Implicit Types (w : World U) (entity : ExampleWriteEntity.t).

(** The load of a stored identity: the hydrated model, three environment
    reads, one recorded action. *)
Lemma find_found (p_id : string) w entity :
  command_store w !! p_id = Some entity ->
  find_by_id_for_command_async env p_id w
  = (Ok (ExampleMapper.to_model_from_write_entity
           (model_ambient_at env (reads w)) entity),
     set_reads (reads w + 3) (set_command_store (command_store w) w),
     [RepoFind p_id]).
Proof.
  intros He. unfold find_by_id_for_command_async, repo_call,
    ExampleCommandRepository.find_by_id_for_command_async.
  rewrite He. reflexivity.
Qed.

Lemma check_ownership_rejects (m : ExampleModel.t) (p_id p_user_id : string) w :
  ExampleModel._owner_id m <> p_user_id ->
  check_ownership m p_id p_user_id w
  = (Raise (ExampleServiceException UNAUTHORIZED [("id", p_id)]
              ("You are not authorized to access example '" +:+ p_id +:+ "'")),
     w, []).
Proof.
  intros Hne. unfold check_ownership, ExampleModel.validate_ownership.
  apply String.eqb_neq in Hne. rewrite Hne. reflexivity.
Qed.

Lemma check_ownership_accepts (m : ExampleModel.t) (p_id p_user_id : string) w :
  ExampleModel._owner_id m = p_user_id ->
  check_ownership m p_id p_user_id w = (Ok tt, w, []).
Proof.
  intros Heq. unfold check_ownership, ExampleModel.validate_ownership.
  apply String.eqb_eq in Heq. rewrite Heq. reflexivity.
Qed.

Lemma update_details_returns (now : datetime) (m : ExampleModel.t)
    (p_name p_description : string) :
  ExampleModel.blank p_name = false -> Py.len p_name <= 100 ->
  Py.not_ (ExampleModel._id m) = false ->
  ExampleModel.blank (ExampleModel._owner_id m) = false ->
  ExampleModel.update_details now m p_name p_description
  = (Ok tt,
     ExampleModel.mk (ExampleModel._id m) (ExampleModel._created_at m) now
       p_name p_description (ExampleModel._owner_id m)
       (ExampleModel._is_active m)).
Proof.
  intros Hb Hlen Hid Hown. unfold ExampleModel.update_details. rewrite Hb.
  f_equal. apply validate_ok_iff. simpl. auto.
Qed.

(** X21.  A user who is not the stored owner is turned away before any
    write: update, delete, activate and deactivate each raise the
    UNAUTHORIZED service exception carrying the identity, after the load
    and nothing else (no write, no event), and leave the store as it was. *)
Theorem non_owner_is_rejected (p_id p_user_id : string)
    (p_request : UpdateExampleRequest.t) w entity :
  command_store w !! p_id = Some entity ->
  ExampleWriteEntity.owner_id entity <> p_user_id ->
  let rejected (o : result unit * World U * list Action) :=
    outcome o
    = Raise (ExampleServiceException UNAUTHORIZED [("id", p_id)]
               ("You are not authorized to access example '" +:+ p_id +:+ "'")) /\
    trace o = [RepoFind p_id] /\
    command_store (world_after o) = command_store w in
  rejected (update_example_async env p_id p_request p_user_id w) /\
  rejected (delete_example_async env p_id p_user_id w) /\
  rejected (activate_example_async env p_id p_user_id w) /\
  rejected (deactivate_example_async env p_id p_user_id w).
Proof.
  intros He Hne. cbv zeta.
  unfold update_example_async, delete_example_async, activate_example_async,
    deactivate_example_async, bind.
  rewrite (find_found p_id w entity He).
  rewrite check_ownership_rejects by exact Hne.
  simpl. repeat split.
Qed.

(** X22.  Reading an absent identity is a typed not-found: behind the
    error-handling stage, the get route for an identity with no read
    projection is answered with the code "not_found", whose status is 404,
    the message "Example '<id>' not found" and the identity as details; no
    action is recorded. *)
Theorem absent_read_is_not_found (p_request : Request.t) (p_id : string) w :
  ExampleQueryRepository.find_by_id_async p_id (query_store w) = None ->
  let o :=
    ErrorHandlingMiddleware env p_request (fun _ => get_example_route env p_id) w in
  outcome o
  = Ok (ErrorResponse
          (ErrorResponseDto.mk "not_found"
             ("Example '" +:+ p_id +:+ "' not found")
             (env_utcnow env (reads w)) "" "" (Some [("id", p_id)]))) /\
  _map_error_code_to_status (StrCode "not_found") = 404 /\
  trace o = [].
Proof.
  intros Habsent. cbv zeta.
  unfold ErrorHandlingMiddleware, get_example_route, get_example_async,
    try_except, bind.
  rewrite Habsent. simpl. repeat split.
Qed.

(** X23.  The update use case for the owner.  When the identity is stored
    under its own key, the caller is its owner, the identity is not empty,
    the owner is not blank and the request passed the edge validation, the
    use case returns; the stored entity then has the request's name and
    description, a new update time and version 0, and every handler
    subscribed to "example.updated" has received an event with the
    identity, the new name and an empty correlation identifier. *)
Theorem owner_update_succeeds (p_id p_user_id : string)
    (p_request : UpdateExampleRequest.t) w entity :
  command_store w !! p_id = Some entity ->
  ExampleWriteEntity.id entity = p_id ->
  ExampleWriteEntity.owner_id entity = p_user_id ->
  Py.not_ p_id = false ->
  ExampleModel.blank p_user_id = false ->
  UpdateExampleRequest.validate p_request = Ok tt ->
  let o := update_example_async env p_id p_request p_user_id w in
  outcome o = Ok tt /\
  command_store (world_after o)
  = <[p_id := ExampleWriteEntity.mk p_id
                (ExampleWriteEntity.created_at entity)
                (env_utcnow env (reads w + 3)) 0
                (UpdateExampleRequest.name p_request)
                (UpdateExampleRequest.description p_request)
                p_user_id (ExampleWriteEntity.is_active entity)]>
      (command_store w) /\
  exists event_id timestamp,
    trace o
    = [RepoFind p_id; RepoUpdate p_id]
      ++ map (fun h =>
                Delivered "example.updated" h
                  (ExampleUpdatedEvent event_id timestamp "" p_id
                     (UpdateExampleRequest.name p_request)))
             (handlers_of "example.updated" w).
Proof.
  intros He Hid Hown Hnonempty Hnonblank Hreq. cbv zeta.
  unfold UpdateExampleRequest.validate in Hreq.
  destruct (ExampleModel.blank (UpdateExampleRequest.name p_request)) eqn:Hb;
    [discriminate |].
  destruct (Z.ltb_spec 100 (Py.len (UpdateExampleRequest.name p_request)));
    [discriminate |].
  unfold update_example_async, bind.
  rewrite (find_found p_id w entity He).
  rewrite check_ownership_accepts by exact Hown.
  unfold mapper_update_model_from_request,
    ExampleMapper.update_model_from_request.
  rewrite update_details_returns;
    [| exact Hb | assumption | simpl; by rewrite Hid | simpl; by rewrite Hown].
  rewrite Hb. simpl.
  unfold update_async, repo_call, ExampleCommandRepository.update_async.
  simpl. rewrite Hid, He, Hown. simpl.
  split; [reflexivity |]. split; [reflexivity |].
  eexists _, _. reflexivity.
Qed.

(** X24.  Activation and deactivation by the owner.  When the identity is
    stored under its own key and the caller is its owner, both use cases
    return; the stored entity then has the active flag set, respectively
    cleared, a new update time, version 0 and its other fields as before;
    and no event is published, whoever is subscribed. *)
Theorem owner_activation (p_id p_user_id : string) w entity :
  command_store w !! p_id = Some entity ->
  ExampleWriteEntity.id entity = p_id ->
  ExampleWriteEntity.owner_id entity = p_user_id ->
  let stored (active : bool) :=
    <[p_id := ExampleWriteEntity.mk p_id
                (ExampleWriteEntity.created_at entity)
                (env_utcnow env (reads w + 3)) 0
                (ExampleWriteEntity.name entity)
                (ExampleWriteEntity.description entity)
                p_user_id active]>
      (command_store w) in
  let done (active : bool) (o : result unit * World U * list Action) :=
    outcome o = Ok tt /\
    command_store (world_after o) = stored active /\
    trace o = [RepoFind p_id; RepoUpdate p_id] in
  done true (activate_example_async env p_id p_user_id w) /\
  done false (deactivate_example_async env p_id p_user_id w).
Proof.
  intros He Hid Hown. cbv zeta.
  unfold activate_example_async, deactivate_example_async, bind.
  rewrite (find_found p_id w entity He).
  rewrite check_ownership_accepts by exact Hown.
  unfold update_async, repo_call, ExampleCommandRepository.update_async.
  subst p_id p_user_id. simpl. rewrite He. simpl. repeat split.
Qed.

(** X25.  The delete use case for the owner.  When the identity is stored
    and the caller is its owner, the use case returns, the entry is removed
    from the store and every other entry kept, and every handler subscribed
    to "example.deleted" has received an event with the identity and an
    empty correlation identifier. *)
Theorem owner_delete_succeeds (p_id p_user_id : string) w entity :
  command_store w !! p_id = Some entity ->
  ExampleWriteEntity.owner_id entity = p_user_id ->
  let o := delete_example_async env p_id p_user_id w in
  outcome o = Ok tt /\
  command_store (world_after o) = delete p_id (command_store w) /\
  exists event_id timestamp,
    trace o
    = [RepoFind p_id; RepoDelete p_id]
      ++ map (fun h =>
                Delivered "example.deleted" h
                  (ExampleDeletedEvent event_id timestamp "" p_id))
             (handlers_of "example.deleted" w).
Proof.
  intros He Hown. cbv zeta.
  unfold delete_example_async, bind.
  rewrite (find_found p_id w entity He).
  rewrite check_ownership_accepts by exact Hown.
  unfold delete_async, repo_call, ExampleCommandRepository.delete_async.
  simpl. rewrite He. simpl.
  split; [reflexivity |]. split; [reflexivity |].
  eexists _, _. reflexivity.
Qed.

(** The responses built for a list of entities: one per entity, in order,
    with the entity's fields; nothing is recorded and the stores stay. *)
Lemma responses_of_spec (entities : list ExampleReadEntity.t) w :
  exists responses w',
    responses_of env entities w = (Ok responses, w', []) /\
    command_store w' = command_store w /\
    query_store w' = query_store w /\
    Forall2
      (fun response row =>
         ExampleResponse.id response = ExampleReadEntity.id row /\
         ExampleResponse.name response = ExampleReadEntity.name row /\
         ExampleResponse.description response
         = ExampleReadEntity.description row /\
         ExampleResponse.owner_id response = ExampleReadEntity.owner_id row /\
         ExampleResponse.owner_name response
         = ExampleReadEntity.owner_name row /\
         ExampleResponse.is_active response
         = ExampleReadEntity.is_active row /\
         ExampleResponse.display_name response
         = ExampleReadEntity.display_name row /\
         ExampleResponse.status_text response
         = ExampleReadEntity.status_text row /\
         ExampleResponse.created_at response
         = ExampleReadEntity.created_at row /\
         ExampleResponse.updated_at response
         = ExampleReadEntity.updated_at row)
      responses entities.
Proof.
  revert w. induction entities as [| row rest IH]; intros w.
  - exists [], w. repeat split. constructor.
  - cbn [responses_of]. unfold bind at 1 2 3. simpl.
    set (w3 := set_reads _ _).
    destruct (IH w3) as (responses & w' & Hrest & Hc & Hq & Hall).
    unfold bind. rewrite Hrest. simpl.
    eexists _, w'. split; [reflexivity |].
    split; [exact Hc |]. split; [exact Hq |].
    constructor; [repeat split | exact Hall].
Qed.

(** X26.  Listing never raises and answers with the page: for any skip and
    take, negative ones included, [list_examples_async] returns one
    response per entity of the query repository's page, in the same order
    and with the same fields; it records no action and leaves both stores
    as they were. *)
Theorem list_examples_returns_page (p_skip p_take : Z) w :
  let page :=
    ExampleQueryRepository.list_by_filter_async p_skip p_take (query_store w) in
  let o := list_examples_async env p_skip p_take w in
  exists responses,
    outcome o = Ok responses /\
    trace o = [] /\
    command_store (world_after o) = command_store w /\
    query_store (world_after o) = query_store w /\
    map ExampleResponse.id responses = map ExampleReadEntity.id page /\
    map ExampleResponse.display_name responses
    = map ExampleReadEntity.display_name page /\
    map ExampleResponse.status_text responses
    = map ExampleReadEntity.status_text page.
Proof.
  cbv zeta. unfold list_examples_async.
  destruct (responses_of_spec
              (ExampleQueryRepository.list_by_filter_async p_skip p_take
                 (query_store w)) w)
    as (responses & w' & Hrun & Hc & Hq & Hall).
  exists responses. rewrite Hrun. simpl.
  repeat split; try assumption.
  all: clear Hrun;
    induction Hall as [| response row responses rows Hre _ IH];
    [reflexivity
    | simpl; f_equal;
      [destruct Hre as (? & ? & ? & ? & ? & ? & ? & ? & ? & ?); assumption
      | exact IH]].
Qed.

End ServiceFacts.

Lemma non_owner_is_rejected_witness :
  outcome (update_example_async env0 "ex-1" gadget_update "user-999" widget_world)
  = Raise (ExampleServiceException UNAUTHORIZED [("id", "ex-1")]
             "You are not authorized to access example 'ex-1'") /\
  trace (update_example_async env0 "ex-1" gadget_update "user-999" widget_world)
  = [RepoFind "ex-1"] /\
  command_store
    (world_after
       (update_example_async env0 "ex-1" gadget_update "user-999" widget_world))
  = widget_store.
Proof.
  destruct (non_owner_is_rejected env0 "ex-1" "user-999" gadget_update
              widget_world widget_entity) as (Hupdate & _);
    [reflexivity | discriminate |].
  exact Hupdate.
Defined.

Lemma absent_read_is_not_found_witness :
  outcome
    (ErrorHandlingMiddleware env0 put_widget
       (fun _ => get_example_route env0 "ex-1") widget_world)
  = Ok (ErrorResponse
          (ErrorResponseDto.mk "not_found" "Example 'ex-1' not found"
             1000 "" "" (Some [("id", "ex-1")]))).
Proof.
  destruct (absent_read_is_not_found env0 put_widget "ex-1" widget_world)
    as (Hout & _); [reflexivity |].
  exact Hout.
Defined.

Lemma owner_update_succeeds_witness :
  outcome (update_example_async env0 "ex-1" gadget_update "user-123" widget_world)
  = Ok tt /\
  command_store
    (world_after
       (update_example_async env0 "ex-1" gadget_update "user-123" widget_world))
  !! "ex-1"
  = Some (ExampleWriteEntity.mk "ex-1" 10 1003 0 "Gadget" "second" "user-123" true).
Proof.
  destruct (owner_update_succeeds env0 "ex-1" "user-123" gadget_update
              widget_world widget_entity) as (Hout & Hstore & _);
    [reflexivity | reflexivity | reflexivity | reflexivity | reflexivity
    | reflexivity |].
  split; [exact Hout |]. rewrite Hstore. apply lookup_insert_eq.
Defined.

Lemma owner_activation_witness :
  outcome (deactivate_example_async env0 "ex-1" "user-123" widget_world) = Ok tt /\
  command_store
    (world_after (deactivate_example_async env0 "ex-1" "user-123" widget_world))
  !! "ex-1"
  = Some (ExampleWriteEntity.mk "ex-1" 10 1003 0 "Widget" "first" "user-123" false) /\
  trace (deactivate_example_async env0 "ex-1" "user-123" widget_world)
  = [RepoFind "ex-1"; RepoUpdate "ex-1"].
Proof.
  destruct (owner_activation env0 "ex-1" "user-123" widget_world widget_entity)
    as (_ & Hout & Hstore & Htrace); [reflexivity | reflexivity | reflexivity |].
  split; [exact Hout |]. split; [| exact Htrace].
  rewrite Hstore. apply lookup_insert_eq.
Defined.

Lemma owner_delete_succeeds_witness :
  outcome (delete_example_async env0 "ex-1" "user-123" widget_world) = Ok tt /\
  command_store
    (world_after (delete_example_async env0 "ex-1" "user-123" widget_world))
  !! "ex-1" = None.
Proof.
  destruct (owner_delete_succeeds env0 "ex-1" "user-123" widget_world
              widget_entity) as (Hout & Hstore & _); [reflexivity | reflexivity |].
  split; [exact Hout |]. rewrite Hstore. apply lookup_delete_eq.
Defined.

(** ** The sibling template *)

Lemma last_cons_default {A} (l : list A) (a d : A) :
  List.last (a :: l) d = List.last l a.
Proof.
  revert a d. induction l as [| b l IH]; intros a d; [reflexivity |].
  change (List.last (a :: b :: l) d) with (List.last (b :: l) d).
  by rewrite !IH.
Qed.

(** X27.  In the rest-ddd write entity, [increment_version] counts: after
    one call per clock reading the version is higher by the number of
    calls, so each call raises it by exactly one; the identity and the
    creation time are kept, and the update time is the last reading. *)
Theorem increment_versions_count (nows : list datetime)
    (self : RestDdd.BaseWriteEntity.t) :
  let e := RestDdd.BaseWriteEntity.increment_versions nows self in
  RestDdd.BaseWriteEntity._version e
  = RestDdd.BaseWriteEntity._version self + Z.of_nat (length nows) /\
  RestDdd.BaseWriteEntity._id e = RestDdd.BaseWriteEntity._id self /\
  RestDdd.BaseWriteEntity._created_at e
  = RestDdd.BaseWriteEntity._created_at self /\
  RestDdd.BaseWriteEntity._updated_at e
  = List.last nows (RestDdd.BaseWriteEntity._updated_at self).
Proof.
  unfold RestDdd.BaseWriteEntity.increment_versions. cbv zeta. revert self.
  induction nows as [| now nows IH]; intros self.
  - simpl. repeat split; lia.
  - cbn [foldl].
    destruct (IH (RestDdd.BaseWriteEntity.increment_version now self))
      as (Hv & Hid & Hc & Hu).
    rewrite Hv, Hid, Hc, Hu, last_cons_default, length_cons. simpl.
    repeat split; lia.
Qed.

(** X28.  The rest-ddd write entity never starts at version 0: a version
    that is not given, or given as 0, becomes 1, and any other version is
    kept. *)
Theorem constructed_version_is_not_zero (now_created now_updated : datetime)
    (p_id : option string) (p_version : option Z)
    (p_created_at p_updated_at : option datetime) :
  let e :=
    RestDdd.BaseWriteEntity.init now_created now_updated p_id p_version
      p_created_at p_updated_at in
  RestDdd.BaseWriteEntity._version e <> 0 /\
  (p_version = None \/ p_version = Some 0 ->
   RestDdd.BaseWriteEntity._version e = 1) /\
  (forall v, p_version = Some v -> v <> 0 ->
     RestDdd.BaseWriteEntity._version e = v).
Proof.
  simpl. unfold RestDdd.BaseWriteEntity.version_or_1.
  destruct p_version as [v |]; [destruct (Z.eqb_spec v 0) as [-> | Hv] |].
  - split; [lia |]. split; [reflexivity |].
    intros v' [= <-] Hv'. lia.
  - split; [exact Hv |]. split; [intros [? | ?]; congruence |].
    intros v' [= <-] _. reflexivity.
  - split; [lia |]. split; [reflexivity | discriminate].
Qed.

Section RestStageFacts.

Context {U : Type} `{IUnitOfWork U}.

Implicit Types (w : World U) (p_request : Request.t).
Implicit Types p_call_next : Request.t -> M U Response.

(** X29.  The rest-ddd unit-of-work stage wraps every request, whatever its
    method, once its transaction has begun.  A response whose status is
    below 400, or that has no status code at all, is committed after the
    handler's actions and returned when the commit returns.  When the
    handler raises an instance of [Exception], the stage calls rollback
    once, on the unit of work as the handler left it, and nothing else,
    and then raises: the handler's exception, or the rollback's own if the
    rollback raised.  When the handler raises anything else, that
    propagates with no rollback and the unit of work is left as it was. *)
Theorem rest_unit_of_work_brackets p_request p_call_next w w1 :
  uow_begin w = (Ok tt, w1, [UowBegin]) ->
  (forall response w2 l,
     p_call_next p_request w1 = (Ok response, w2, l) ->
     RestDdd.status_code_or_200 response < 400 ->
     fst (commit_async (unit_of_work w2)) = Ok tt ->
     RestDdd.UnitOfWorkMiddleware p_request p_call_next w
     = (Ok response,
        set_unit_of_work (snd (commit_async (unit_of_work w2))) w2,
        UowBegin :: l ++ [UowCommit])) /\
  (forall e w2 l,
     p_call_next p_request w1 = (Raise e, w2, l) ->
     RestDdd.UnitOfWorkMiddleware p_request p_call_next w
     = if is_Exception e
       then (match fst (rollback_async (unit_of_work w2)) with
             | Ok _ => Raise e
             | Raise e' => Raise e'
             end,
             set_unit_of_work (snd (rollback_async (unit_of_work w2))) w2,
             UowBegin :: l ++ [UowRollback])
       else (Raise e, w2, UowBegin :: l)).
Proof.
  intros Hbegin. split.
  - intros response w2 l Hnext Hstatus Hcommit.
    unfold RestDdd.UnitOfWorkMiddleware, try_except, bind.
    rewrite Hbegin, Hnext. simpl.
    destruct (Z.ltb_spec (RestDdd.status_code_or_200 response) 400) as [_ | ?];
      [| lia].
    unfold uow_commit. rewrite uow_call_spec, Hcommit. simpl.
    by rewrite ?app_nil_r.
  - intros e w2 l Hnext.
    unfold RestDdd.UnitOfWorkMiddleware, try_except, bind.
    rewrite Hbegin, Hnext. simpl.
    destruct (is_Exception e); [| reflexivity].
    unfold uow_rollback. rewrite uow_call_spec.
    destruct (fst (rollback_async (unit_of_work w2))) as [[] | e'];
      simpl; rewrite ?app_nil_r; reflexivity.
Qed.

End RestStageFacts.

Lemma rest_unit_of_work_brackets_witness :
  RestDdd.UnitOfWorkMiddleware
    (Request.mk "GET" "/api/v1/examples" "user-123" None)
    (fun _ =>
       ret (ErrorResponse
              (ErrorResponseDto.mk "not_found" "gone" 0 "" "" None)))
    widget_world
  = (Ok (ErrorResponse (ErrorResponseDto.mk "not_found" "gone" 0 "" "" None)),
     widget_world, [UowBegin; UowCommit]).
Proof.
  destruct (rest_unit_of_work_brackets
              (Request.mk "GET" "/api/v1/examples" "user-123" None)
              (fun _ =>
                 ret (ErrorResponse
                        (ErrorResponseDto.mk "not_found" "gone" 0 "" "" None)))
              widget_world (set_unit_of_work ACTIVE widget_world))
    as (Hcommit & _); [reflexivity |].
  refine (Hcommit _ (set_unit_of_work ACTIVE widget_world) [] _ _ _);
    [reflexivity | simpl; lia | reflexivity].
Defined.
